(** * plausible-hosting: the CDK stack builder and its boot script

    A shallow embedding of the Go program under [cdk/]:

    - [cdk/cdk.go]        package [main]: [env] and [main];
    - [cdk/lib/stack.go]  package [lib]: [NewPlausibleStack], the variant that
                          wraps the boot script in a multipart user data;
    - the second copy of [stack.go] kept in the tree (module [part_000]
      below): [NewPlausibleStack] with a flat Linux user data.

    The program only assembles descriptors through the AWS CDK.  The CDK calls
    it makes are embedded as the descriptor they record in the stack: every
    construct is stored in the stack under its construct id, and the handles
    the Go code passes around ([vpc], [sg], [role], [instance], [eip]) are
    those ids, so that a method called on a handle ([sg.AddIngressRule],
    [role.AddToPolicy]) updates the one shared object in the stack.

    Go pointers that may be nil are [option]s; a Go panic is [Panic]. *)

From Stdlib Require Import String Ascii List ZArith Lia.
From stdpp Require Import base option gmap strings list.

Local Open Scope string_scope.
Local Open Scope Z_scope.

(** ** Go runtime: calls that may panic *)

Inductive result (A : Type) : Type :=
| Ok (a : A)
| Panic (msg : string).

Arguments Ok {A} a.
Arguments Panic {A} msg.

#[global] Instance result_ret : MRet result := fun A a => Ok a.

#[global] Instance result_bind : MBind result := fun A B f m =>
  match m with
  | Ok a => f a
  | Panic msg => Panic msg
  end.

(** [*p] and [p.f] on a pointer [p]. *)
Definition deref {A : Type} (p : option A) : result A :=
  match p with
  | Some a => Ok a
  | None => Panic "runtime error: invalid memory address or nil pointer dereference"
  end.

Definition is_ok {A : Type} (r : result A) : bool :=
  match r with
  | Ok _ => true
  | Panic _ => false
  end.

(** ** Package [jsii]: pointer helpers

    [jsii.String], [jsii.Bool] and [jsii.Number] return a fresh, non-nil
    pointer to their argument; the embedding identifies such a pointer with
    the value.  Where the receiving field is optional the call site wraps it
    in [Some].  [jsii.Number] takes a [float64]; the program only passes
    small integers. *)

Module jsii.

Definition String (s : string) : string := s.

Definition Bool (b : bool) : bool := b.

Definition Number (n : Z) : Z := n.

End jsii.

(** ** Package [fmt] *)

Module fmt.

(** What [Sprintf] prints once the format is used up: nothing, or the
    operands that no verb consumed. *)
Definition extra (a : list string) : string :=
  match a with
  | [] => ""
  | x :: a' =>
      "%!(EXTRA string=" +:+ x +:+
      fold_right (fun y acc => ", string=" +:+ y +:+ acc) ")" a'
  end.

Definition is_percent (c : ascii) : bool := Ascii.eqb c "%".

(** [fmt.Sprintf] on string operands, for formats made of literal text, [%%]
    and plain [%s] / [%v] verbs, which is what the program uses; a verb
    without an operand and operands without a verb print Go's markers.
    Flags, widths and the other verbs that Go accepts on a string ([%q],
    [%x], [%X]) are outside this fragment. *)
Fixpoint Sprintf (format : string) (a : list string) : string :=
  match format with
  | EmptyString => extra a
  | String c rest =>
      if is_percent c then
        match rest with
        | EmptyString => "%!(NOVERB)" +:+ extra a
        | String v rest' =>
            if is_percent v then String "%" (Sprintf rest' a)
            else
              match a with
              | [] => "%!" +:+ String v "(MISSING)" +:+ Sprintf rest' []
              | x :: a' =>
                  (if Ascii.eqb v "s" || Ascii.eqb v "v" then x
                   else "%!" +:+ String v "(string=" +:+ x +:+ ")")
                  +:+ Sprintf rest' a'
              end
        end
      else String c (Sprintf rest a)
  end.

End fmt.

(** ** Package [os] *)

Module os.

(** The process environment: variable name to value. *)
Definition Getenv (environ : gmap string string) (key : string) : string :=
  default "" (environ !! key).

End os.

(** ** Package [constructs] *)

Module constructs.

(** A node of the construct tree, named by the ids on the way from the
    root. *)
Record Construct : Type := { path : list string }.

End constructs.

(** ** Package [awsiam]: descriptors *)

Module iam_.

Inductive IPrincipal : Type :=
| ServicePrincipal (service : string).

Definition NewServicePrincipal (service : string) (opts : option unit) : IPrincipal :=
  ServicePrincipal service.

Inductive IManagedPolicy : Type :=
| AwsManagedPolicy (managedPolicyName : string).

Definition ManagedPolicy_FromAwsManagedPolicyName (name : string) : IManagedPolicy :=
  AwsManagedPolicy name.

Inductive Effect : Type :=
| Effect_ALLOW
| Effect_DENY.

Module RoleProps.
Record t : Type := {
  AssumedBy : IPrincipal;
  ManagedPolicies : option (list IManagedPolicy)
}.
End RoleProps.

Module PolicyStatementProps.
Record t : Type := {
  Effect : option iam_.Effect;
  Actions : option (list string);
  Resources : option (list string)
}.
End PolicyStatementProps.

(** A policy statement as the role stores it; an unset effect is ALLOW. *)
Record PolicyStatement : Type := {
  effect : Effect;
  actions : list string;
  resources : list string
}.

Definition NewPolicyStatement (props : PolicyStatementProps.t) : PolicyStatement :=
  {| effect := default Effect_ALLOW (PolicyStatementProps.Effect props);
     actions := default [] (PolicyStatementProps.Actions props);
     resources := default [] (PolicyStatementProps.Resources props) |}.

(** Handle of a role: its construct id in the stack. *)
Definition IRole : Type := string.

End iam_.

(** ** Package [awsec2]: descriptors *)

Module ec2_.

Definition IVpc : Type := string.
Definition ISecurityGroup : Type := string.
Definition IKeyPair : Type := string.
Definition Instance : Type := string.
Definition CfnEIP : Type := string.

Module VpcLookupOptions.
Record t : Type := { IsDefault : option bool }.
End VpcLookupOptions.

Module SecurityGroupProps.
Record t : Type := {
  Vpc : IVpc;
  AllowAllOutbound : option bool;
  SecurityGroupName : option string
}.
End SecurityGroupProps.

Record IPeer : Type := { cidrIp : string }.

Definition Peer_AnyIpv4 : IPeer := {| cidrIp := "0.0.0.0/0" |}.

Inductive Protocol : Type :=
| TCP
| UDP
| ICMP
| ALL.

Record Port : Type := {
  protocol : Protocol;
  fromPort : Z;
  toPort : Z
}.

Definition Port_Tcp (port : Z) : Port :=
  {| protocol := TCP; fromPort := port; toPort := port |}.

(** One entry of a security group's ingress rule list. *)
Record IngressRule : Type := {
  peer : IPeer;
  connection : Port;
  description : option string
}.

#[global] Instance IPeer_eq_dec : EqDecision IPeer.
Proof. solve_decision. Defined.

#[global] Instance Protocol_eq_dec : EqDecision Protocol.
Proof. solve_decision. Defined.

#[global] Instance Port_eq_dec : EqDecision Port.
Proof. solve_decision. Defined.

#[global] Instance IngressRule_eq_dec : EqDecision IngressRule.
Proof. solve_decision. Defined.

Module LinuxUserDataOptions.
Record t : Type := { Shebang : option string }.
End LinuxUserDataOptions.

(** User data: a Linux script under construction (its lines in order), or a
    multipart archive of labelled parts, each wrapping a user data. *)
Inductive UserData : Type :=
| LinuxUserData (options : LinuxUserDataOptions.t) (lines : list string)
| MultipartUserData_ (m : MultipartUserData)
with MultipartUserData : Type :=
| Multipart (parts : list MultipartBody)
with MultipartBody : Type :=
| Body (userData : UserData) (contentType : string).

Definition UserData_ForLinux (options : LinuxUserDataOptions.t) : UserData :=
  LinuxUserData options [].

Definition NewMultipartUserData (opts : option unit) : MultipartUserData :=
  Multipart [].

(** [userData.AddCommands(commands...)]: the commands go, in order, after the
    lines already there.  A multipart user data has no default part to
    receive them unless one was set, which this program never does. *)
Definition AddCommands (userData : UserData) (commands : list string) : result UserData :=
  match userData with
  | LinuxUserData options lines => Ok (LinuxUserData options (lines ++ commands)%list)
  | MultipartUserData_ _ =>
      Panic "MultipartUserData.addCommands: no default user data part was set"
  end.

Definition MultipartBody_FromUserData (userData : UserData) (contentType : string) : MultipartBody :=
  Body userData contentType.

Definition AddPart (m : MultipartUserData) (part : MultipartBody) : MultipartUserData :=
  match m with
  | Multipart parts => Multipart (parts ++ [part])%list
  end.

(** The shell commands a user data carries, in the order they will run. *)
Fixpoint commands (userData : UserData) : list string :=
  match userData with
  | LinuxUserData _ lines => lines
  | MultipartUserData_ (Multipart parts) =>
      (fix of_parts (ps : list MultipartBody) : list string :=
         match ps with
         | [] => []
         | Body u _ :: ps' => (commands u ++ of_parts ps')%list
         end) parts
  end.

Module LookupMachineImageProps.
Record t : Type := {
  Name : string;
  Owners : option (list string)
}.
End LookupMachineImageProps.

Inductive IMachineImage : Type :=
| LookupMachineImage (props : LookupMachineImageProps.t).

Definition MachineImage_Lookup (props : LookupMachineImageProps.t) : IMachineImage :=
  LookupMachineImage props.

Inductive InstanceClass : Type :=
| InstanceClass_BURSTABLE2
| InstanceClass_BURSTABLE3
| InstanceClass_BURSTABLE4_GRAVITON.

Inductive InstanceSize : Type :=
| InstanceSize_NANO
| InstanceSize_MICRO
| InstanceSize_SMALL
| InstanceSize_MEDIUM
| InstanceSize_LARGE.

Record InstanceType : Type := {
  instanceClass : InstanceClass;
  instanceSize : InstanceSize
}.

Definition InstanceType_Of (c : InstanceClass) (s : InstanceSize) : InstanceType :=
  {| instanceClass := c; instanceSize := s |}.

Module InstanceProps.
Record t : Type := {
  InstanceType : ec2_.InstanceType;
  MachineImage : IMachineImage;
  Vpc : IVpc;
  SecurityGroup : option ISecurityGroup;
  KeyPair : option IKeyPair;
  Role : option iam_.IRole;
  UserData : option ec2_.UserData
}.
End InstanceProps.

(** A value only known at deployment: the reference to a construct of the
    stack ([instance.InstanceId()], [eip.Ref()]). *)
Inductive Attribute : Type :=
| Ref (logicalId : string).

Module CfnEIPProps.
Record t : Type := {
  Domain : option string;
  InstanceId : option Attribute
}.
End CfnEIPProps.

End ec2_.

(** ** Package [awscdk] *)

Module awscdk.

Module Environment.
Record t : Type := {
  Account : option string;
  Region : option string
}.
End Environment.

Module StackProps.
Record t : Type := { Env : option Environment.t }.
End StackProps.

Module CfnOutputProps.
Record t : Type := {
  Value : ec2_.Attribute;
  Description : option string
}.
End CfnOutputProps.

(** What a stack holds under a construct id. *)
Inductive Resource : Type :=
| Vpc (options : ec2_.VpcLookupOptions.t)
| SecurityGroup (props : ec2_.SecurityGroupProps.t) (ingress : list ec2_.IngressRule)
| Role (props : iam_.RoleProps.t) (policy : list iam_.PolicyStatement)
| KeyPair (keyPairName : string)
| Instance (props : ec2_.InstanceProps.t)
| CfnEIP (props : ec2_.CfnEIPProps.t)
| CfnOutput (props : CfnOutputProps.t).

(** A stack under construction.  [account] and [region] are the target
    environment; [None] stands for the SDK's placeholder of a stack that was
    given no concrete value (an environment-agnostic stack). *)
Record Stack : Type := {
  scope : constructs.Construct;
  id : string;
  account : option string;
  region : option string;
  children : gmap string Resource
}.

(** The root of a construct tree.  What the SDK reads from the process
    environment when it creates an app (its context, its output directory)
    has no part in the constructs of a stack and is left out. *)
Definition NewApp (props : option unit) : constructs.Construct :=
  {| constructs.path := [] |}.

(** The environment of a stack is the one given in its props.  The scope is
    taken to be an app (a stage that brings an environment of its own is not
    represented) and the id to be a stack name the SDK accepts and that the
    scope does not hold yet; the checks the SDK makes on the id are left
    out. *)
Definition NewStack (scope : constructs.Construct) (id : string) (props : StackProps.t) : Stack :=
  {| scope := scope;
     id := id;
     account := StackProps.Env props ≫= Environment.Account;
     region := StackProps.Env props ≫= Environment.Region;
     children := ∅ |}.

Definition Account (stack : Stack) : option string := account stack.

Definition Region (stack : Stack) : option string := region stack.

Definition set_children (stack : Stack) (c : gmap string Resource) : Stack :=
  {| scope := scope stack;
     id := id stack;
     account := account stack;
     region := region stack;
     children := c |}.

(** Construct ids are unique within their scope. *)
Definition add_child (stack : Stack) (id : string) (r : Resource) : result Stack :=
  match children stack !! id with
  | Some _ => Panic ("There is already a Construct with name '" +:+ id +:+ "' in Stack")
  | None => Ok (set_children stack (<[id := r]> (children stack)))
  end.

Definition NewCfnOutput (stack : Stack) (id : string) (props : CfnOutputProps.t) : result Stack :=
  add_child stack id (CfnOutput props).

End awscdk.

(** ** Package [awsec2]: constructs of a stack *)

Module ec2.

Include ec2_.

(** A context lookup needs the stack's concrete account and region. *)
Definition Vpc_FromLookup (scope : awscdk.Stack) (id : string) (options : VpcLookupOptions.t)
  : result (IVpc * awscdk.Stack) :=
  match awscdk.Account scope, awscdk.Region scope with
  | Some _, Some _ =>
      stack ← awscdk.add_child scope id (awscdk.Vpc options);
      Ok (id, stack)
  | _, _ =>
      Panic "Cannot retrieve value from context provider vpc-provider since account/region are not specified at the stack level"
  end.

Definition NewSecurityGroup (scope : awscdk.Stack) (id : string) (props : SecurityGroupProps.t)
  : result (ISecurityGroup * awscdk.Stack) :=
  stack ← awscdk.add_child scope id (awscdk.SecurityGroup props []);
  Ok (id, stack).

(** Two rules are the same rule when they open the same ports to the same
    peer, whatever their descriptions. *)
Definition same_rule (r1 r2 : IngressRule) : bool :=
  bool_decide (peer r1 = peer r2) && bool_decide (connection r1 = connection r2).

(** [sg.AddIngressRule(peer, connection, description, remoteRule)]: the rule
    is added after the ones already there, unless the same rule is present. *)
Definition AddIngressRule (stack : awscdk.Stack) (sg : ISecurityGroup)
    (peer : IPeer) (connection : Port) (description : option string)
    (remoteRule : option bool) : result awscdk.Stack :=
  match awscdk.children stack !! sg with
  | Some (awscdk.SecurityGroup props ingress) =>
      let rule := {| peer := peer; connection := connection; description := description |} in
      let ingress' :=
        if existsb (same_rule rule) ingress then ingress else (ingress ++ [rule])%list in
      Ok (awscdk.set_children stack
            (<[sg := awscdk.SecurityGroup props ingress']> (awscdk.children stack)))
  | _ => Panic "AddIngressRule: not a security group of this stack"
  end.

Definition KeyPair_FromKeyPairName (scope : awscdk.Stack) (id : string) (keyPairName : string)
  : result (IKeyPair * awscdk.Stack) :=
  stack ← awscdk.add_child scope id (awscdk.KeyPair keyPairName);
  Ok (id, stack).

Definition NewInstance (scope : awscdk.Stack) (id : string) (props : InstanceProps.t)
  : result (Instance * awscdk.Stack) :=
  stack ← awscdk.add_child scope id (awscdk.Instance props);
  Ok (id, stack).

Definition InstanceId (instance : Instance) : Attribute := Ref instance.

Definition NewCfnEIP (scope : awscdk.Stack) (id : string) (props : CfnEIPProps.t)
  : result (CfnEIP * awscdk.Stack) :=
  stack ← awscdk.add_child scope id (awscdk.CfnEIP props);
  Ok (id, stack).

Definition CfnEIP_Ref (eip : CfnEIP) : Attribute := Ref eip.

End ec2.

(** ** Package [awsiam]: constructs of a stack *)

Module iam.

Include iam_.

Definition NewRole (scope : awscdk.Stack) (id : string) (props : RoleProps.t)
  : result (IRole * awscdk.Stack) :=
  stack ← awscdk.add_child scope id (awscdk.Role props []);
  Ok (id, stack).

(** [role.AddToPolicy(statement)]: the statement joins the role's own
    policy. *)
Definition AddToPolicy (stack : awscdk.Stack) (role : IRole) (statement : PolicyStatement)
  : result awscdk.Stack :=
  match awscdk.children stack !! role with
  | Some (awscdk.Role props policy) =>
      Ok (awscdk.set_children stack
            (<[role := awscdk.Role props (policy ++ [statement])%list]> (awscdk.children stack)))
  | _ => Panic "AddToPolicy: not a role of this stack"
  end.

End iam.

(** ** Go raw string literals

    A raw string literal spanning several source lines holds the line feeds
    and the leading tabs of the source file.  [raw] joins the source lines
    with line feeds; [tabs n] is the indentation of a line. *)

Definition nl : string := String (ascii_of_nat 10) EmptyString.

Definition tab : string := String (ascii_of_nat 9) EmptyString.

Definition dquote : string := String (ascii_of_nat 34) EmptyString.

Fixpoint tabs (n : nat) : string :=
  match n with
  | O => ""
  | S n' => tab +:+ tabs n'
  end.

Definition raw (lines : list string) : string := String.concat nl lines.

(** ** Package [lib], file [cdk/lib/stack.go] *)

Module lib.

Module PlausibleStackProps.
Record t : Type := { StackProps : awscdk.StackProps.t }.
End PlausibleStackProps.

Definition NewPlausibleStack (scope : constructs.Construct) (id : string)
    (props : option PlausibleStackProps.t) : result awscdk.Stack :=
  props_ ← deref props;
  let stack := awscdk.NewStack scope id (PlausibleStackProps.StackProps props_) in
  let accountId := awscdk.Account stack in
  let region := awscdk.Region stack in

  '(vpc, stack) ← ec2.Vpc_FromLookup stack (jsii.String "DefaultVPC")
      {| ec2.VpcLookupOptions.IsDefault := Some (jsii.Bool true) |};

  '(sg, stack) ← ec2.NewSecurityGroup stack (jsii.String "PlausibleSG")
      {| ec2.SecurityGroupProps.Vpc := vpc;
         ec2.SecurityGroupProps.AllowAllOutbound := Some (jsii.Bool true);
         ec2.SecurityGroupProps.SecurityGroupName := Some (jsii.String "PlausibleSG") |};

  stack ← ec2.AddIngressRule stack sg ec2.Peer_AnyIpv4 (ec2.Port_Tcp (jsii.Number 22))
      (Some (jsii.String "Allow SSH")) None;
  stack ← ec2.AddIngressRule stack sg ec2.Peer_AnyIpv4 (ec2.Port_Tcp (jsii.Number 80))
      (Some (jsii.String "Allow HTTP")) None;
  stack ← ec2.AddIngressRule stack sg ec2.Peer_AnyIpv4 (ec2.Port_Tcp (jsii.Number 443))
      (Some (jsii.String "Allow HTTPS")) None;

  '(role, stack) ← iam.NewRole stack (jsii.String "InstanceSSMRole")
      {| iam.RoleProps.AssumedBy :=
           iam.NewServicePrincipal (jsii.String "ec2.amazonaws.com") None;
         iam.RoleProps.ManagedPolicies := Some [
           iam.ManagedPolicy_FromAwsManagedPolicyName (jsii.String "AmazonSSMManagedInstanceCore")
         ] |};

  region_ ← deref region;
  accountId_ ← deref accountId;
  stack ← iam.AddToPolicy stack role (iam.NewPolicyStatement
      {| iam.PolicyStatementProps.Effect := Some iam.Effect_ALLOW;
         iam.PolicyStatementProps.Actions := Some [
           jsii.String "ssm:GetParameter";
           jsii.String "ssm:GetParameters"
         ];
         iam.PolicyStatementProps.Resources := Some [
           jsii.String (fmt.Sprintf "arn:aws:ssm:%s:%s:parameter/plausible/*" [region_; accountId_])
         ] |});

  (* User Data script *)
  let userData := ec2.NewMultipartUserData None in

  (* Create UserData for Linux commands *)
  let linuxCommands := ec2.UserData_ForLinux
      {| ec2.LinuxUserDataOptions.Shebang := Some (jsii.String "#!/bin/bash") |} in

  (* Add commands *)
  linuxCommands ← ec2.AddCommands linuxCommands [
    jsii.String "sudo apt-get update -y";
    jsii.String "sudo apt-get install -y docker.io docker-compose git awscli";
    jsii.String "sudo systemctl enable docker";
    jsii.String "sudo systemctl start docker";
    (* Get the instance's region *)
    jsii.String "REGION=$(curl -s http://169.254.169.254/latest/meta-data/placement/region)";
    (* Retrieve parameters and export them as environment variables *)
    jsii.String "export SECRET_KEY_BASE=$(aws ssm get-parameter --name '/plausible/secret_key_base' --with-decryption --query Parameter.Value --output text --region $REGION)";
    jsii.String "export POSTGRES_PASSWORD=$(aws ssm get-parameter --name '/plausible/postgres_password' --with-decryption --query Parameter.Value --output text --region $REGION)";
    jsii.String "export BASE_URL='https://analytics.ilmarlopez.com'";
    (* Clone your repository *)
    jsii.String "cd /home/ubuntu";
    jsii.String "git clone https://github.com/IlmarLopez/plausible-hosting.git";
    jsii.String "cd plausible-hosting";
    (* Start Docker Compose *)
    jsii.String "sudo docker-compose up -d";
    (* Install Nginx and Certbot *)
    jsii.String "sudo apt-get install -y nginx python3-certbot-nginx";
    jsii.String "sudo systemctl enable nginx";
    jsii.String "sudo systemctl start nginx";
    (* Configure Nginx *)
    jsii.String (raw [
      "";
      tabs 3 +:+ "sudo bash -c 'cat > /etc/nginx/sites-available/plausible <<'EOF'";
      tabs 3 +:+ "server {";
      tabs 5 +:+ "listen 80;";
      tabs 5 +:+ "server_name analytics.ilmarlopez.com;";
      "";
      tabs 5 +:+ "location / {";
      tabs 7 +:+ "proxy_pass http://localhost:8000;";
      tabs 7 +:+ "proxy_set_header Host $host;";
      tabs 7 +:+ "proxy_set_header X-Real-IP $remote_addr;";
      tabs 7 +:+ "proxy_set_header X-Forwarded-For $proxy_add_x_forwarded_for;";
      tabs 7 +:+ "proxy_set_header X-Forwarded-Proto $scheme;";
      tabs 5 +:+ "}";
      tabs 3 +:+ "}";
      tabs 3 +:+ "EOF'"
    ]);
    jsii.String "sudo ln -s /etc/nginx/sites-available/plausible /etc/nginx/sites-enabled/";
    jsii.String "sudo rm /etc/nginx/sites-enabled/default";
    jsii.String "sudo nginx -t";
    jsii.String "sudo systemctl restart nginx";
    (* Obtain and configure SSL certificate with Certbot *)
    jsii.String "sudo certbot --nginx -n --agree-tos --email me@ilmarlopez.com -d analytics.ilmarlopez.com --redirect";
    (* Configure automatic certificate renewal *)
    jsii.String "echo '0 0 * * * root /usr/bin/certbot renew --quiet' | sudo tee /etc/cron.d/certbot-renew"
  ];

  (* Create a MultipartBody from linuxCommands *)
  let linuxUserDataPart := ec2.MultipartBody_FromUserData
      linuxCommands
      (jsii.String ("text/x-shellscript; charset=" +:+ dquote +:+ "utf-8" +:+ dquote)) in

  (* Add the part to MultipartUserData *)
  let userData := ec2.AddPart userData linuxUserDataPart in

  (* Ubuntu AMI using MachineImage_Lookup *)
  let ami := ec2.MachineImage_Lookup
      {| ec2.LookupMachineImageProps.Name :=
           jsii.String "ubuntu/images/hvm-ssd/ubuntu-focal-20.04-amd64-server-*";
         ec2.LookupMachineImageProps.Owners := Some [jsii.String "099720109477"] |} in

  (* EC2 Instance *)
  '(keyPair, stack) ← ec2.KeyPair_FromKeyPairName stack (jsii.String "KeyPairName")
      (jsii.String "plausible-keypair");
  '(instance, stack) ← ec2.NewInstance stack (jsii.String "PlausibleInstance")
      {| ec2.InstanceProps.InstanceType :=
           ec2.InstanceType_Of ec2.InstanceClass_BURSTABLE3 ec2.InstanceSize_MICRO;
         ec2.InstanceProps.MachineImage := ami;
         ec2.InstanceProps.Vpc := vpc;
         ec2.InstanceProps.SecurityGroup := Some sg;
         ec2.InstanceProps.KeyPair := Some keyPair;
         ec2.InstanceProps.Role := Some role;
         ec2.InstanceProps.UserData := Some (ec2.MultipartUserData_ userData) |};

  (* Assign an Elastic IP to the EC2 instance *)
  '(eip, stack) ← ec2.NewCfnEIP stack (jsii.String "InstanceEIP")
      {| ec2.CfnEIPProps.Domain := Some (jsii.String "vpc");
         ec2.CfnEIPProps.InstanceId := Some (ec2.InstanceId instance) |};

  (* Output the public IP address *)
  stack ← awscdk.NewCfnOutput stack (jsii.String "InstancePublicIP")
      {| awscdk.CfnOutputProps.Value := ec2.CfnEIP_Ref eip;
         awscdk.CfnOutputProps.Description :=
           Some (jsii.String "The public IP address of the EC2 instance") |};

  Ok stack.

End lib.

(** ** Package [lib], the second copy of [stack.go]

    Same package and function name as [lib.NewPlausibleStack]; the boot script
    is one flat Linux user data. *)

Module part_000.

Module PlausibleStackProps.
Record t : Type := { StackProps : awscdk.StackProps.t }.
End PlausibleStackProps.

Definition NewPlausibleStack (scope : constructs.Construct) (id : string)
    (props : option PlausibleStackProps.t) : result awscdk.Stack :=
  props_ ← deref props;
  let stack := awscdk.NewStack scope id (PlausibleStackProps.StackProps props_) in
  let accountId := awscdk.Account stack in
  let region := awscdk.Region stack in

  (* Lookup the default VPC in the account *)
  '(vpc, stack) ← ec2.Vpc_FromLookup stack (jsii.String "DefaultVPC")
      {| ec2.VpcLookupOptions.IsDefault := Some (jsii.Bool true) |};

  (* Create a Security Group for the EC2 instance *)
  '(sg, stack) ← ec2.NewSecurityGroup stack (jsii.String "PlausibleSG")
      {| ec2.SecurityGroupProps.Vpc := vpc;
         ec2.SecurityGroupProps.AllowAllOutbound := Some (jsii.Bool true);
         ec2.SecurityGroupProps.SecurityGroupName := Some (jsii.String "PlausibleSG") |};

  (* Add ingress rules to the Security Group *)
  stack ← ec2.AddIngressRule stack sg ec2.Peer_AnyIpv4 (ec2.Port_Tcp (jsii.Number 22))
      (Some (jsii.String "Allow SSH")) None;
  stack ← ec2.AddIngressRule stack sg ec2.Peer_AnyIpv4 (ec2.Port_Tcp (jsii.Number 80))
      (Some (jsii.String "Allow HTTP")) None;
  stack ← ec2.AddIngressRule stack sg ec2.Peer_AnyIpv4 (ec2.Port_Tcp (jsii.Number 443))
      (Some (jsii.String "Allow HTTPS")) None;

  (* Create an IAM Role for the EC2 instance with SSM access *)
  '(role, stack) ← iam.NewRole stack (jsii.String "InstanceSSMRole")
      {| iam.RoleProps.AssumedBy :=
           iam.NewServicePrincipal (jsii.String "ec2.amazonaws.com") None;
         iam.RoleProps.ManagedPolicies := Some [
           iam.ManagedPolicy_FromAwsManagedPolicyName (jsii.String "AmazonSSMManagedInstanceCore")
         ] |};

  (* Add custom policy to access SSM parameters for Plausible *)
  region_ ← deref region;
  accountId_ ← deref accountId;
  stack ← iam.AddToPolicy stack role (iam.NewPolicyStatement
      {| iam.PolicyStatementProps.Effect := Some iam.Effect_ALLOW;
         iam.PolicyStatementProps.Actions := Some [
           jsii.String "ssm:GetParameter";
           jsii.String "ssm:GetParameters"
         ];
         iam.PolicyStatementProps.Resources := Some [
           jsii.String (fmt.Sprintf "arn:aws:ssm:%s:%s:parameter/plausible/*" [region_; accountId_])
         ] |});

  (* Lookup the latest Ubuntu 20.04 AMI *)
  let ami := ec2.MachineImage_Lookup
      {| ec2.LookupMachineImageProps.Name :=
           jsii.String "ubuntu/images/hvm-ssd/ubuntu-focal-20.04-amd64-server-*";
         ec2.LookupMachineImageProps.Owners := Some [jsii.String "099720109477"] |} in

  (* Define User Data script for Linux instances *)
  let userData := ec2.UserData_ForLinux
      {| ec2.LinuxUserDataOptions.Shebang := Some (jsii.String "#!/bin/bash") |} in

  (* Add commands to the User Data script *)
  userData ← ec2.AddCommands userData [
    (* Update and install necessary packages *)
    jsii.String "sudo apt-get update -y";
    jsii.String "sudo apt-get install -y docker.io docker-compose git awscli";
    jsii.String "sudo systemctl enable docker";
    jsii.String "sudo systemctl start docker";
    (* Retrieve the instance's region *)
    jsii.String "REGION=$(curl -s http://169.254.169.254/latest/meta-data/placement/region)";
    (* Fetch secrets from AWS SSM Parameter Store and export as environment variables *)
    jsii.String "export SECRET_KEY_BASE=$(aws ssm get-parameter --name '/plausible/secret_key_base' --with-decryption --query Parameter.Value --output text --region $REGION)";
    jsii.String "export POSTGRES_PASSWORD=$(aws ssm get-parameter --name '/plausible/postgres_password' --with-decryption --query Parameter.Value --output text --region $REGION)";
    jsii.String "export BASE_URL='https://analytics.ilmarlopez.com'";
    (* Clone the Plausible Hosting repository *)
    jsii.String "cd /home/ubuntu";
    jsii.String "git clone https://github.com/IlmarLopez/plausible-hosting.git";
    jsii.String "cd plausible-hosting";
    (* Start Docker Compose services *)
    jsii.String "sudo docker-compose up -d";
    (* Install Nginx and Certbot *)
    jsii.String "sudo apt-get install -y nginx python3-certbot-nginx";
    jsii.String "sudo systemctl enable nginx";
    jsii.String "sudo systemctl start nginx";
    (* Configure Nginx using sudo tee with heredoc to prevent variable expansion *)
    jsii.String (raw [
      "sudo tee /etc/nginx/sites-available/plausible > /dev/null << 'EOF'";
      "server {";
      "    listen 80;";
      "    server_name analytics.ilmarlopez.com;";
      "";
      "    location / {";
      "        proxy_pass http://localhost:8000;";
      "        proxy_set_header Host $host;";
      "        proxy_set_header X-Real-IP $remote_addr;";
      "        proxy_set_header X-Forwarded-For $proxy_add_x_forwarded_for;";
      "        proxy_set_header X-Forwarded-Proto $scheme;";
      "    }";
      "}";
      "EOF";
      ""
    ]);
    (* Enable the new Nginx site and disable the default *)
    jsii.String "sudo ln -s /etc/nginx/sites-available/plausible /etc/nginx/sites-enabled/";
    jsii.String "sudo rm /etc/nginx/sites-enabled/default";
    (* Test and restart Nginx to apply the new configuration *)
    jsii.String "sudo nginx -t";
    jsii.String "sudo systemctl restart nginx";
    (* Obtain and configure SSL certificate with Certbot *)
    jsii.String "sudo certbot --nginx -n --agree-tos --email me@ilmarlopez.com -d analytics.ilmarlopez.com --redirect";
    (* Set up automatic certificate renewal *)
    jsii.String "echo '0 0 * * * root /usr/bin/certbot renew --quiet' | sudo tee /etc/cron.d/certbot-renew"
  ];

  (* Create the EC2 instance with the specified User Data *)
  '(keyPair, stack) ← ec2.KeyPair_FromKeyPairName stack (jsii.String "KeyPairName")
      (jsii.String "plausible-keypair");
  '(instance, stack) ← ec2.NewInstance stack (jsii.String "PlausibleInstance")
      {| ec2.InstanceProps.InstanceType :=
           ec2.InstanceType_Of ec2.InstanceClass_BURSTABLE3 ec2.InstanceSize_MICRO;
         ec2.InstanceProps.MachineImage := ami;
         ec2.InstanceProps.Vpc := vpc;
         ec2.InstanceProps.SecurityGroup := Some sg;
         ec2.InstanceProps.KeyPair := Some keyPair;
         ec2.InstanceProps.Role := Some role;
         ec2.InstanceProps.UserData := Some userData |};

  (* Assign an Elastic IP to the EC2 instance *)
  '(eip, stack) ← ec2.NewCfnEIP stack (jsii.String "InstanceEIP")
      {| ec2.CfnEIPProps.Domain := Some (jsii.String "vpc");
         ec2.CfnEIPProps.InstanceId := Some (ec2.InstanceId instance) |};

  (* Output the public IP address of the EC2 instance *)
  stack ← awscdk.NewCfnOutput stack (jsii.String "InstancePublicIP")
      {| awscdk.CfnOutputProps.Value := ec2.CfnEIP_Ref eip;
         awscdk.CfnOutputProps.Description :=
           Some (jsii.String "The public IP address of the EC2 instance") |};

  Ok stack.

End part_000.

(** ** Package [main], file [cdk/cdk.go] *)

Module main.

(** [env()]: both fields always point to a string; an unset variable reads
    as the empty string. *)
Definition env (environ : gmap string string) : awscdk.Environment.t :=
  {| awscdk.Environment.Account := Some (jsii.String (os.Getenv environ "CDK_DEFAULT_ACCOUNT"));
     awscdk.Environment.Region := Some (jsii.String (os.Getenv environ "CDK_DEFAULT_REGION")) |}.

(** The stack [main()] builds, that is [main()] up to its call of
    [lib.NewPlausibleStack].  The synthesis [app.Synth(nil)] that follows is
    the SDK's and is not part of this definition: nothing stated of
    [main.main] says what [main()] does after the stack is built. *)
Definition main (environ : gmap string string) : result awscdk.Stack :=
  let app := awscdk.NewApp None in
  lib.NewPlausibleStack app "plausible-stack"
    (Some {| lib.PlausibleStackProps.StackProps :=
               {| awscdk.StackProps.Env := Some (env environ) |} |}).

End main.

(** ** Reading a built stack *)

(** The props of the deployment context with the given account and region. *)
Definition env_of (account region : option string) : awscdk.StackProps.t :=
  {| awscdk.StackProps.Env :=
       Some {| awscdk.Environment.Account := account;
               awscdk.Environment.Region := region |} |}.

Definition instance_props (stack : awscdk.Stack) : option ec2.InstanceProps.t :=
  match awscdk.children stack !! "PlausibleInstance" with
  | Some (awscdk.Instance props) => Some props
  | _ => None
  end.

(** The security group the instance is placed in. *)
Definition security_group (stack : awscdk.Stack)
  : option (ec2.SecurityGroupProps.t * list ec2.IngressRule) :=
  props ← instance_props stack;
  sg ← ec2.InstanceProps.SecurityGroup props;
  match awscdk.children stack !! sg with
  | Some (awscdk.SecurityGroup sprops ingress) => Some (sprops, ingress)
  | _ => None
  end.

(** An ingress rule as the triple (port, protocol, source) when it opens a
    single port. *)
Definition entry (r : ec2.IngressRule) : Z * ec2.Protocol * string :=
  (ec2.fromPort (ec2.connection r), ec2.protocol (ec2.connection r), ec2.cidrIp (ec2.peer r)).

Definition single_port (r : ec2.IngressRule) : bool :=
  Z.eqb (ec2.fromPort (ec2.connection r)) (ec2.toPort (ec2.connection r)).

Definition ingress (stack : awscdk.Stack) : option (list ec2.IngressRule) :=
  snd <$> security_group stack.

(** The role the instance runs under. *)
Definition instance_role (stack : awscdk.Stack)
  : option (iam.RoleProps.t * list iam.PolicyStatement) :=
  props ← instance_props stack;
  role ← ec2.InstanceProps.Role props;
  match awscdk.children stack !! role with
  | Some (awscdk.Role rprops policy) => Some (rprops, policy)
  | _ => None
  end.

(** The resource patterns of the statements in the instance role's policy. *)
Definition policy_resources (stack : awscdk.Stack) : option (list string) :=
  (fun rp => concat (iam.resources <$> snd rp)) <$> instance_role stack.

Definition user_data (stack : awscdk.Stack) : option ec2.UserData :=
  instance_props stack ≫= ec2.InstanceProps.UserData.

(** The boot script of the instance: its commands in order. *)
Definition boot_script (stack : awscdk.Stack) : option (list string) :=
  ec2.commands <$> user_data stack.

(** What is read from the outcome of a build; a build that panicked yields
    nothing. *)
Definition observe {A : Type} (f : awscdk.Stack -> option A) (r : result awscdk.Stack)
  : option A :=
  match r with
  | Ok stack => f stack
  | Panic _ => None
  end.

Definition ingress_entries (stack : awscdk.Stack)
  : option (list (Z * ec2.Protocol * string)) :=
  map entry <$> ingress stack.

Definition allow_all_outbound (stack : awscdk.Stack) : option (option bool) :=
  (fun sp => ec2.SecurityGroupProps.AllowAllOutbound (fst sp)) <$> security_group stack.

Definition role_principal (stack : awscdk.Stack) : option iam.IPrincipal :=
  (fun rp => iam.RoleProps.AssumedBy (fst rp)) <$> instance_role stack.

Definition role_managed_policies (stack : awscdk.Stack) : option (list iam.IManagedPolicy) :=
  (fun rp => default [] (iam.RoleProps.ManagedPolicies (fst rp))) <$> instance_role stack.

(** The statements of the role's own policy: effect and actions of each. *)
Definition role_statements (stack : awscdk.Stack) : option (list (iam.Effect * list string)) :=
  (fun rp => map (fun st => (iam.effect st, iam.actions st)) (snd rp)) <$> instance_role stack.

(** The last command of the boot script. *)
Definition final_command (stack : awscdk.Stack) : option string :=
  boot_script stack ≫= last.

Definition lib_props (p : awscdk.StackProps.t) : option lib.PlausibleStackProps.t :=
  Some {| lib.PlausibleStackProps.StackProps := p |}.

Definition part_000_props (p : awscdk.StackProps.t) : option part_000.PlausibleStackProps.t :=
  Some {| part_000.PlausibleStackProps.StackProps := p |}.

(** The stack the second copy builds for the process environment [main]
    reads. *)
Definition part_000_main (environ : gmap string string) : result awscdk.Stack :=
  part_000.NewPlausibleStack (awscdk.NewApp None) "plausible-stack"
    (Some {| part_000.PlausibleStackProps.StackProps :=
               {| awscdk.StackProps.Env := Some (main.env environ) |} |}).

(** The three ingress entries of the security group. *)
Definition fixed_ingress : list (Z * ec2.Protocol * string) :=
  [ (22, ec2.TCP, "0.0.0.0/0"); (80, ec2.TCP, "0.0.0.0/0"); (443, ec2.TCP, "0.0.0.0/0") ].

(** The resource pattern for an account and a region. *)
Definition ssm_pattern (region account : string) : string :=
  "arn:aws:ssm:" +:+ region +:+ ":" +:+ account +:+ ":parameter/plausible/*".

(** ** Phases of the boot script

    The commands are opaque strings to the program; the phases the
    specification speaks of are recognised by what a command starts with or
    mentions. *)

Fixpoint contains (needle hay : string) : bool :=
  String.prefix needle hay ||
  match hay with
  | EmptyString => false
  | String _ hay' => contains needle hay'
  end.

(** The query of the metadata endpoint that assigns REGION. *)
Definition is_region_discovery (c : string) : bool :=
  String.prefix "REGION=$(curl " c && contains "169.254.169.254" c.

Definition exports (var c : string) : bool :=
  String.prefix ("export " +:+ var +:+ "=") c.

Definition is_secret_export (c : string) : bool :=
  exports "SECRET_KEY_BASE" c || exports "POSTGRES_PASSWORD" c.

Definition is_workload_start (c : string) : bool :=
  contains "docker-compose up" c.

Definition is_cert_issuance (c : string) : bool :=
  String.prefix "sudo certbot " c.

(** Every command on nginx, the certificate request made through its plugin
    apart. *)
Definition is_reverse_proxy (c : string) : bool :=
  contains "nginx" c && negb (is_cert_issuance c).

Definition is_nginx_install (c : string) : bool :=
  String.prefix "sudo apt-get install " c && contains " nginx" c.

Definition is_site_config_write (c : string) : bool :=
  contains "/etc/nginx/sites-available/plausible <<" c ||
  contains "/etc/nginx/sites-available/plausible > /dev/null <<" c.

Definition is_site_symlink (c : string) : bool :=
  String.prefix "sudo ln -s /etc/nginx/sites-available/plausible " c.

Definition is_config_test (c : string) : bool :=
  String.eqb c "sudo nginx -t".

Definition is_proxy_restart (c : string) : bool :=
  String.eqb c "sudo systemctl restart nginx".

(** The positions of a script, counted from [n], whose command satisfies
    [p]. *)
Fixpoint positions_from (n : nat) (p : string -> bool) (l : list string) : list nat :=
  match l with
  | [] => []
  | c :: l' => if p c then n :: positions_from (S n) p l' else positions_from (S n) p l'
  end.

Definition positions (p : string -> bool) (l : list string) : list nat :=
  positions_from 0 p l.

(** Every [p] command stands strictly before every [q] command. *)
Definition all_before (p q : string -> bool) (l : list string) : Prop :=
  forall i j ci cj,
    l !! i = Some ci -> p ci = true ->
    l !! j = Some cj -> q cj = true ->
    (i < j)%nat.

Definition all_beforeb (p q : string -> bool) (l : list string) : bool :=
  forallb (fun i => forallb (fun j => Nat.ltb i j) (positions q l)) (positions p l).

(** The secret exports sit between region discovery and workload start, and
    all four commands are there. *)
Definition secrets_in_order (script : list string) : Prop :=
  existsb is_region_discovery script = true /\
  existsb (exports "SECRET_KEY_BASE") script = true /\
  existsb (exports "POSTGRES_PASSWORD") script = true /\
  existsb is_workload_start script = true /\
  all_before is_region_discovery is_secret_export script /\
  all_before is_secret_export is_workload_start script.

(** The reverse-proxy commands sit between workload start and certificate
    issuance; install, site-config write, symlink, config test and restart
    are among them. *)
Definition proxy_in_order (script : list string) : Prop :=
  existsb is_workload_start script = true /\
  existsb is_cert_issuance script = true /\
  Forall (fun kind => existsb (fun c => kind c && is_reverse_proxy c) script = true)
    [is_nginx_install; is_site_config_write; is_site_symlink; is_config_test;
     is_proxy_restart] /\
  all_before is_workload_start is_reverse_proxy script /\
  all_before is_reverse_proxy is_cert_issuance script.

(** Two scripts of the same length that hold the same command at every
    position but [k]. *)
Definition agree_except (k : nat) (l1 l2 : list string) : Prop :=
  length l1 = length l2 /\
  forall i, i <> k -> l1 !! i = l2 !! i.

(** A property of what was read from a build, which has to be there. *)
Definition holds {A : Type} (P : A -> Prop) (o : option A) : Prop :=
  match o with
  | Some a => P a
  | None => False
  end.

Definition holds2 {A B : Type} (P : A -> B -> Prop) (o1 : option A) (o2 : option B) : Prop :=
  match o1, o2 with
  | Some a, Some b => P a b
  | _, _ => False
  end.

(** ** The shell on the instance

    The last claim on the boot script is about what one of its commands does
    to a file when the instance runs it.  That is the behaviour of the shell
    and of the POSIX utilities [echo] and [tee], not of this program; the
    fragment below covers pipelines of [echo] and [tee], optionally under
    [sudo], with single-quoted words. *)

Module sh.

Inductive token : Type :=
| Word (w : string)
| Pipe.

Definition push (cur : option string) (c : ascii) : option string :=
  Some (default "" cur +:+ String c EmptyString).

Definition flush (cur : option string) : list token :=
  match cur with
  | Some w => [Word w]
  | None => []
  end.

(** Words of a command line: blanks separate words, text between single
    quotes is taken literally, an unquoted bar is the pipe operator. *)
Fixpoint lex (s : string) (quoted : bool) (cur : option string) : list token :=
  match s with
  | EmptyString => flush cur
  | String c rest =>
      if quoted then
        if Ascii.eqb c "'" then lex rest false cur
        else lex rest true (push cur c)
      else if Ascii.eqb c "'" then lex rest true (Some (default "" cur))
      else if Ascii.eqb c " " then (flush cur ++ lex rest false None)%list
      else if Ascii.eqb c "|" then (flush cur ++ Pipe :: lex rest false None)%list
      else lex rest false (push cur c)
  end.

(** The stages of a pipeline, each a list of words. *)
Fixpoint stages (ts : list token) (cur : list string) : list (list string) :=
  match ts with
  | [] => [cur]
  | Word w :: ts' => stages ts' (cur ++ [w])%list
  | Pipe :: ts' => cur :: stages ts' []
  end.

Inductive command : Type :=
| Echo (args : list string)
| Tee (append : bool) (files : list string).

Definition strip_sudo (ws : list string) : list string :=
  match ws with
  | w :: ws' => if String.eqb w "sudo" then ws' else ws
  | [] => []
  end.

Definition parse (ws : list string) : option command :=
  match strip_sudo ws with
  | [] => None
  | w :: args =>
      if String.eqb w "echo" then Some (Echo args)
      else if String.eqb w "tee" then
        match args with
        | a :: files => if String.eqb a "-a" then Some (Tee true files) else Some (Tee false args)
        | [] => Some (Tee false [])
        end
      else None
  end.

(** Files by path. *)
Definition write_file (append : bool) (text : string) (fs : gmap string string) (f : string)
  : gmap string string :=
  <[f := (if append then default "" (fs !! f) else "") +:+ text]> fs.

(** One stage: from its standard input and the files, its standard output
    and the files.  [echo] prints its arguments separated by blanks and a
    line feed; [tee] copies its input to its output and to each file, which
    it truncates first unless [-a] is given. *)
Definition exec (c : command) (stdin : string) (fs : gmap string string)
  : string * gmap string string :=
  match c with
  | Echo args => (String.concat " " args +:+ nl, fs)
  | Tee append files => (stdin, fold_left (write_file append stdin) files fs)
  end.

Fixpoint pipeline (cs : list (list string)) (stdin : string) (fs : gmap string string)
  : option (gmap string string) :=
  match cs with
  | [] => Some fs
  | ws :: cs' =>
      c ← parse ws;
      let '(out, fs') := exec c stdin fs in
      pipeline cs' out fs'
  end.

(** Running one command line of the script. *)
Definition run (line : string) (fs : gmap string string) : option (gmap string string) :=
  pipeline (stages (lex line false None) []) "" fs.

End sh.

(** A command line appends [text] to the file at [path]: whatever the file
    held, it holds that followed by [text] afterwards. *)
Definition appends_to (line path text : string) : Prop :=
  forall fs : gmap string string,
    sh.run line fs = Some (<[path := default "" (fs !! path) +:+ text]> fs).

(** A command line overwrites the file at [path] with [text]. *)
Definition overwrites (line path text : string) : Prop :=
  forall fs : gmap string string,
    sh.run line fs = Some (<[path := text]> fs).

Definition cron_path : string := "/etc/cron.d/certbot-renew".

Definition cron_line : string := "0 0 * * * root /usr/bin/certbot renew --quiet" +:+ nl.

(** ** The whole stack *)

(** A possibly nil [*PlausibleStackProps] of either copy from a possibly nil
    [awscdk.StackProps]. *)
Definition lib_of (p : option awscdk.StackProps.t) : option lib.PlausibleStackProps.t :=
  (fun sp => {| lib.PlausibleStackProps.StackProps := sp |}) <$> p.

Definition part_000_of (p : option awscdk.StackProps.t)
  : option part_000.PlausibleStackProps.t :=
  (fun sp => {| part_000.PlausibleStackProps.StackProps := sp |}) <$> p.

Definition panic_message {A : Type} (r : result A) : option string :=
  match r with
  | Ok _ => None
  | Panic msg => Some msg
  end.

(** A resource with the user data of an instance left out. *)
Definition without_user_data (r : awscdk.Resource) : awscdk.Resource :=
  match r with
  | awscdk.Instance props =>
      awscdk.Instance
        {| ec2.InstanceProps.InstanceType := ec2.InstanceProps.InstanceType props;
           ec2.InstanceProps.MachineImage := ec2.InstanceProps.MachineImage props;
           ec2.InstanceProps.Vpc := ec2.InstanceProps.Vpc props;
           ec2.InstanceProps.SecurityGroup := ec2.InstanceProps.SecurityGroup props;
           ec2.InstanceProps.KeyPair := ec2.InstanceProps.KeyPair props;
           ec2.InstanceProps.Role := ec2.InstanceProps.Role props;
           ec2.InstanceProps.UserData := None |}
  | _ => r
  end.

Definition erase_user_data (stack : awscdk.Stack) : awscdk.Stack :=
  awscdk.set_children stack (without_user_data <$> awscdk.children stack).

(** Two outcomes that are the same panic, or stacks equal up to the user
    data of their instances. *)
Definition same_apart_from_user_data (r1 r2 : result awscdk.Stack) : Prop :=
  match r1, r2 with
  | Ok s1, Ok s2 => erase_user_data s1 = erase_user_data s2
  | Panic m1, Panic m2 => m1 = m2
  | _, _ => False
  end.

(** The construct ids of a stack. *)
Definition construct_ids (stack : awscdk.Stack) : gset string :=
  dom (awscdk.children stack).

Definition is_vpc (r : awscdk.Resource) : bool :=
  match r with awscdk.Vpc _ => true | _ => false end.

Definition is_security_group (r : awscdk.Resource) : bool :=
  match r with awscdk.SecurityGroup _ _ => true | _ => false end.

Definition is_role (r : awscdk.Resource) : bool :=
  match r with awscdk.Role _ _ => true | _ => false end.

Definition is_key_pair (r : awscdk.Resource) : bool :=
  match r with awscdk.KeyPair _ => true | _ => false end.

Definition is_instance (r : awscdk.Resource) : bool :=
  match r with awscdk.Instance _ => true | _ => false end.

Definition is_eip (r : awscdk.Resource) : bool :=
  match r with awscdk.CfnEIP _ => true | _ => false end.

Definition referenced (a : ec2.Attribute) : string :=
  match a with ec2.Ref logicalId => logicalId end.

(** The handles a resource holds, each with the kind of construct it has to
    lead to; the value of an output may refer to any construct. *)
Definition handles (r : awscdk.Resource) : list ((awscdk.Resource -> bool) * string) :=
  match r with
  | awscdk.Vpc _ => []
  | awscdk.SecurityGroup props _ => [(is_vpc, ec2.SecurityGroupProps.Vpc props)]
  | awscdk.Role _ _ => []
  | awscdk.KeyPair _ => []
  | awscdk.Instance props =>
      ((is_vpc, ec2.InstanceProps.Vpc props)
       :: option_list (pair is_security_group <$> ec2.InstanceProps.SecurityGroup props)
       ++ option_list (pair is_key_pair <$> ec2.InstanceProps.KeyPair props)
       ++ option_list (pair is_role <$> ec2.InstanceProps.Role props))%list
  | awscdk.CfnEIP props =>
      option_list ((fun a => (is_instance, referenced a)) <$> ec2.CfnEIPProps.InstanceId props)
  | awscdk.CfnOutput props =>
      [((fun _ => true), referenced (awscdk.CfnOutputProps.Value props))]
  end.

Definition resolves (stack : awscdk.Stack) (h : (awscdk.Resource -> bool) * string) : bool :=
  match awscdk.children stack !! snd h with
  | Some r => fst h r
  | None => false
  end.

(** No construct of the stack holds a handle that leads nowhere or to a
    construct of the wrong kind. *)
Definition well_linked (stack : awscdk.Stack) : bool :=
  forallb (fun kr => forallb (resolves stack) (handles (snd kr)))
    (map_to_list (awscdk.children stack)).

Definition vpc_options (stack : awscdk.Stack) (vpc : ec2.IVpc) : option (option bool) :=
  match awscdk.children stack !! vpc with
  | Some (awscdk.Vpc options) => Some (ec2.VpcLookupOptions.IsDefault options)
  | _ => None
  end.

Definition key_pair_name (stack : awscdk.Stack) (keyPair : ec2.IKeyPair) : option string :=
  match awscdk.children stack !! keyPair with
  | Some (awscdk.KeyPair name) => Some name
  | _ => None
  end.

(** The instance as the provisioning engine is asked for it: size, image
    lookup, whether its network is the default one, and key pair name. *)
Definition instance_summary (stack : awscdk.Stack)
  : option (ec2.InstanceType * ec2.IMachineImage * option bool * string) :=
  props ← instance_props stack;
  isDefault ← vpc_options stack (ec2.InstanceProps.Vpc props);
  keyPair ← ec2.InstanceProps.KeyPair props;
  name ← key_pair_name stack keyPair;
  Some (ec2.InstanceProps.InstanceType props, ec2.InstanceProps.MachineImage props,
        isDefault, name).

(** The network of the instance and the network of its security group. *)
Definition networks (stack : awscdk.Stack) : option (ec2.IVpc * ec2.IVpc) :=
  props ← instance_props stack;
  sg ← security_group stack;
  Some (ec2.InstanceProps.Vpc props, ec2.SecurityGroupProps.Vpc (fst sg)).

(** The outputs of the stack: name, description, and, when the value refers
    to an elastic IP, the props of that address. *)
Definition outputs (stack : awscdk.Stack)
  : list (string * option string * option ec2.CfnEIPProps.t) :=
  omap (fun kr =>
          match snd kr with
          | awscdk.CfnOutput props =>
              Some (fst kr, awscdk.CfnOutputProps.Description props,
                    match awscdk.children stack
                            !! referenced (awscdk.CfnOutputProps.Value props) with
                    | Some (awscdk.CfnEIP eip) => Some eip
                    | _ => None
                    end)
          | _ => None
          end)
    (map_to_list (awscdk.children stack)).

(** ** Text of the commands *)

Fixpoint skip (n : nat) (s : string) : string :=
  match n, s with
  | S n', String _ s' => skip n' s'
  | _, _ => s
  end.

(** The text after the first occurrence of [marker]. *)
Fixpoint after (marker s : string) : option string :=
  if String.prefix marker s then Some (skip (String.length marker) s)
  else
    match s with
    | EmptyString => None
    | String _ s' => after marker s'
    end.

(** The text before the first occurrence of [marker]. *)
Fixpoint before (marker s : string) : option string :=
  if String.prefix marker s then Some EmptyString
  else
    match s with
    | EmptyString => None
    | String c s' => String c <$> before marker s'
    end.

(** The text between the first [opening] and the next [closing]. *)
Definition between (opening closing s : string) : option string :=
  after opening s ≫= before closing.

(** The names of the parameters a script fetches from the parameter store. *)
Definition fetched_parameters (script : list string) : list string :=
  omap (between "aws ssm get-parameter --name '" "'") script.

(** The ARN of a parameter whose name starts with a slash. *)
Definition parameter_arn (region account name : string) : string :=
  "arn:aws:ssm:" +:+ region +:+ ":" +:+ account +:+ ":parameter" +:+ name.

(** Matching of a resource pattern of a policy statement: [*] stands for
    any text, [?] for any one character. *)
Fixpoint glob (pattern s : string) : bool :=
  match pattern with
  | EmptyString => match s with EmptyString => true | _ => false end
  | String c pattern' =>
      if Ascii.eqb c "*" then
        (fix any (s : string) : bool :=
           glob pattern' s ||
           match s with
           | EmptyString => false
           | String _ s' => any s'
           end) s
      else
        match s with
        | EmptyString => false
        | String d s' => (Ascii.eqb c "?" || Ascii.eqb c d) && glob pattern' s'
        end
  end.

Definition colon_free (s : string) : Prop := contains ":" s = false.

(** The domains the script names: in the base URL handed to the workload,
    in the server name of the proxy site, and in the certificate request. *)
Definition base_url_domains (script : list string) : list string :=
  omap (between "export BASE_URL='https://" "'") script.

Definition server_names (script : list string) : list string :=
  omap (between "server_name " ";") script.

Definition certificate_domains (script : list string) : list string :=
  omap (fun c => if is_cert_issuance c then between " -d " " " c else None) script.

(** The upstream the proxy site passes requests to. *)
Definition proxy_targets (script : list string) : list string :=
  omap (between "proxy_pass " ";") script.

(** A command without a leading [sudo]. *)
Definition unprivileged (c : string) : string :=
  if String.prefix "sudo " c then skip 5 c else c.

(** The command runs [tool], itself or in a command substitution. *)
Definition invokes (tool c : string) : bool :=
  String.prefix (tool +:+ " ") (unprivileged c) || contains ("$(" +:+ tool +:+ " ") c.

(** The command installs [package] with apt-get. *)
Definition installs (package c : string) : bool :=
  String.prefix "sudo apt-get install " c &&
  contains (" " +:+ package +:+ " ") (c +:+ " ").

(** The tools the script runs and the package each comes from. *)
Definition tools : list (string * string) :=
  [ ("docker-compose", "docker-compose"); ("git", "git"); ("aws", "awscli");
    ("nginx", "nginx"); ("certbot", "python3-certbot-nginx") ].

Definition installed_before_use (script : list string) (tp : string * string) : Prop :=
  existsb (installs (snd tp)) script = true /\
  existsb (invokes (fst tp)) script = true /\
  all_before (installs (snd tp)) (invokes (fst tp)) script.

Definition is_renewal_job (c : string) : bool :=
  contains "certbot renew" c && contains cron_path c.

Definition is_clone (c : string) : bool := String.prefix "git clone " c.

Definition enters_clone (c : string) : bool := String.eqb c "cd plausible-hosting".

(** The steps inside the later phases are all there and follow each other:
    the repository is cloned before it is entered and the workload started
    from it; the proxy site is written, then linked, then tested, then the
    proxy restarted; the certificate is requested before its renewal is
    scheduled. *)
Definition steps_in_order (script : list string) : Prop :=
  Forall (fun step => existsb step script = true)
    [is_clone; enters_clone; is_workload_start; is_site_config_write; is_site_symlink;
     is_config_test; is_proxy_restart; is_cert_issuance; is_renewal_job] /\
  all_before is_clone enters_clone script /\
  all_before enters_clone is_workload_start script /\
  all_before is_site_config_write is_site_symlink script /\
  all_before is_site_symlink is_config_test script /\
  all_before is_config_test is_proxy_restart script /\
  all_before is_cert_issuance is_renewal_job script.

(** The script names one domain, the same in all three places. *)
Definition one_domain (script : list string) : Prop :=
  exists d,
    base_url_domains script = [d] /\
    server_names script = [d] /\
    certificate_domains script = [d].

(** The role's policy covers, for the given region and account, every
    parameter the script fetches. *)
Definition covers_fetched (region account : string)
    (script resources : list string) : Prop :=
  fetched_parameters script <> [] /\
  Forall (fun name =>
            Exists (fun pattern => glob pattern (parameter_arn region account name) = true)
              resources)
    (fetched_parameters script).

(** The props [main()] hands to [NewPlausibleStack]: the environment of
    [env()]. *)
Definition env_props (environ : gmap string string) : awscdk.StackProps.t :=
  {| awscdk.StackProps.Env := Some (main.env environ) |}.

(** ** The two forms of the site-config command *)

Definition is_line_feed (c : ascii) : bool := Ascii.eqb c (ascii_of_nat 10).

(** The lines of a text; [cur] is the line being read. *)
Fixpoint split_lines (s cur : string) : list string :=
  match s with
  | EmptyString => [cur]
  | String c s' =>
      if is_line_feed c then cur :: split_lines s' EmptyString
      else split_lines s' (cur +:+ String c EmptyString)
  end.

(** Every line that is not empty starts with a tab. *)
Definition tab_indented (c : string) : bool :=
  forallb (fun l => String.eqb l "" || String.prefix tab l) (split_lines c "").

(** The site file is written by [cat] in a [sudo bash -c], the command
    starting on the line after the opening of the raw string. *)
Definition writes_site_with_bash_cat (c : string) : bool :=
  String.prefix
    (nl +:+ tabs 3 +:+ "sudo bash -c 'cat > /etc/nginx/sites-available/plausible <<'EOF'" +:+ nl)
    c.

(** The site file is written by [sudo tee] reading a here-document. *)
Definition writes_site_with_tee (c : string) : bool :=
  String.prefix
    ("sudo tee /etc/nginx/sites-available/plausible > /dev/null << 'EOF'" +:+ nl)
    c.

(** * Properties *)

(** ** Builds *)

(** Case analysis on the props of a build known to return a stack: every
    nil pointer on the way to the account and the region is ruled out. *)
Ltac build_inv H props :=
  destruct props as [ [ [ [ [ [?account | ] [?region | ] ] | ] ] ] | ];
  vm_compute in H; try discriminate H; clear H.

Lemma lib_builds scope id account region :
  is_ok (lib.NewPlausibleStack scope id
           (lib_props (env_of (Some account) (Some region)))) = true.
Proof. reflexivity. Qed.

Lemma part_000_builds scope id account region :
  is_ok (part_000.NewPlausibleStack scope id
           (part_000_props (env_of (Some account) (Some region)))) = true.
Proof. reflexivity. Qed.

(** A stack without a concrete account or region stops at the VPC lookup. *)
Lemma lib_needs_environment scope id account region :
  is_ok (lib.NewPlausibleStack scope id (lib_props (env_of account region)))
  = match account, region with Some _, Some _ => true | _, _ => false end.
Proof. destruct account, region; reflexivity. Qed.

Lemma part_000_needs_environment scope id account region :
  is_ok (part_000.NewPlausibleStack scope id (part_000_props (env_of account region)))
  = match account, region with Some _, Some _ => true | _, _ => false end.
Proof. destruct account, region; reflexivity. Qed.

Lemma Sprintf_pattern region account :
  fmt.Sprintf "arn:aws:ssm:%s:%s:parameter/plausible/*" [region; account]
  = ssm_pattern region account.
Proof. reflexivity. Qed.

Lemma Getenv_unset (environ : gmap string string) key :
  environ !! key = None -> os.Getenv environ key = "".
Proof. intros H. unfold os.Getenv. rewrite H. reflexivity. Qed.

(** ** Resource pattern of the policy statement *)

(** C1. For a deployment context with a non-empty account and a non-empty
    region, the one resource pattern of the instance role's policy statement
    is [arn:aws:ssm:<region>:<account>:parameter/plausible/*], in both copies
    of [NewPlausibleStack]. *)
Theorem iam_resource_pattern scope id (account region : string) :
  account <> "" -> region <> "" ->
  observe policy_resources
    (lib.NewPlausibleStack scope id (lib_props (env_of (Some account) (Some region))))
  = Some ["arn:aws:ssm:" +:+ region +:+ ":" +:+ account +:+ ":parameter/plausible/*"]
  /\
  observe policy_resources
    (part_000.NewPlausibleStack scope id (part_000_props (env_of (Some account) (Some region))))
  = Some ["arn:aws:ssm:" +:+ region +:+ ":" +:+ account +:+ ":parameter/plausible/*"].
Proof. intros _ _. split; reflexivity. Qed.

Lemma iam_resource_pattern_witness :
  "111122223333" <> "" /\ "us-east-1" <> "" /\
  observe policy_resources
    (lib.NewPlausibleStack (awscdk.NewApp None) "plausible-stack"
       (lib_props (env_of (Some "111122223333") (Some "us-east-1"))))
  = Some ["arn:aws:ssm:us-east-1:111122223333:parameter/plausible/*"] /\
  observe policy_resources
    (part_000.NewPlausibleStack (awscdk.NewApp None) "plausible-stack"
       (part_000_props (env_of (Some "111122223333") (Some "us-east-1"))))
  = Some ["arn:aws:ssm:us-east-1:111122223333:parameter/plausible/*"].
Proof.
  split; [discriminate|]. split; [discriminate|].
  apply (iam_resource_pattern (awscdk.NewApp None) "plausible-stack"
           "111122223333" "us-east-1"); discriminate.
Defined.

(** ** Ingress rules *)

(** C2. Whatever the scope, the id and the props, a stack that
    [NewPlausibleStack] returns has a security group whose ingress rules are
    exactly 22/tcp, 80/tcp and 443/tcp from 0.0.0.0/0, each a single port, in
    both copies; so has the stack [main] builds, whatever the process
    environment. *)
Theorem ingress_rules_fixed scope id :
  (forall props,
     is_ok (lib.NewPlausibleStack scope id props) = true ->
     observe ingress_entries (lib.NewPlausibleStack scope id props) = Some fixed_ingress /\
     observe (fun s => forallb single_port <$> ingress s)
       (lib.NewPlausibleStack scope id props) = Some true)
  /\
  (forall props,
     is_ok (part_000.NewPlausibleStack scope id props) = true ->
     observe ingress_entries (part_000.NewPlausibleStack scope id props) = Some fixed_ingress /\
     observe (fun s => forallb single_port <$> ingress s)
       (part_000.NewPlausibleStack scope id props) = Some true)
  /\
  (forall environ,
     observe ingress_entries (main.main environ) = Some fixed_ingress /\
     observe ingress_entries (part_000_main environ) = Some fixed_ingress).
Proof.
  split; [|split].
  - intros props H; build_inv H props; split; reflexivity.
  - intros props H; build_inv H props; split; reflexivity.
  - intros environ. unfold main.main, part_000_main, main.env.
    generalize (os.Getenv environ "CDK_DEFAULT_REGION") as region.
    generalize (os.Getenv environ "CDK_DEFAULT_ACCOUNT") as account.
    split; reflexivity.
Qed.

Lemma ingress_rules_fixed_witness :
  observe ingress_entries
    (lib.NewPlausibleStack (awscdk.NewApp None) "plausible-stack"
       (lib_props (env_of (Some "111122223333") (Some "us-east-1"))))
  = Some [ (22, ec2.TCP, "0.0.0.0/0"); (80, ec2.TCP, "0.0.0.0/0"); (443, ec2.TCP, "0.0.0.0/0") ]
  /\
  observe ingress_entries
    (part_000.NewPlausibleStack (awscdk.NewApp None) "other-stack"
       (part_000_props (env_of (Some "") (Some "eu-west-3"))))
  = Some [ (22, ec2.TCP, "0.0.0.0/0"); (80, ec2.TCP, "0.0.0.0/0"); (443, ec2.TCP, "0.0.0.0/0") ].
Proof.
  split.
  - apply (proj1 (ingress_rules_fixed (awscdk.NewApp None) "plausible-stack")).
    reflexivity.
  - apply (proj1 (proj2 (ingress_rules_fixed (awscdk.NewApp None) "other-stack"))).
    reflexivity.
Defined.

(** ** Missing environment values *)

Lemma env_props_resources environ :
  observe policy_resources
    (lib.NewPlausibleStack (awscdk.NewApp None) "plausible-stack"
       (lib_props (env_props environ)))
  = Some [ssm_pattern (os.Getenv environ "CDK_DEFAULT_REGION")
                      (os.Getenv environ "CDK_DEFAULT_ACCOUNT")]
  /\
  observe policy_resources
    (part_000.NewPlausibleStack (awscdk.NewApp None) "plausible-stack"
       (part_000_props (env_props environ)))
  = Some [ssm_pattern (os.Getenv environ "CDK_DEFAULT_REGION")
                      (os.Getenv environ "CDK_DEFAULT_ACCOUNT")].
Proof.
  unfold env_props, main.env.
  generalize (os.Getenv environ "CDK_DEFAULT_REGION") as region.
  generalize (os.Getenv environ "CDK_DEFAULT_ACCOUNT") as account.
  split; reflexivity.
Qed.

Lemma env_props_build environ :
  is_ok (lib.NewPlausibleStack (awscdk.NewApp None) "plausible-stack"
           (lib_props (env_props environ))) = true /\
  is_ok (part_000.NewPlausibleStack (awscdk.NewApp None) "plausible-stack"
           (part_000_props (env_props environ))) = true.
Proof.
  unfold env_props, main.env.
  generalize (os.Getenv environ "CDK_DEFAULT_REGION") as region.
  generalize (os.Getenv environ "CDK_DEFAULT_ACCOUNT") as account.
  split; reflexivity.
Qed.

(** C8. When the account or the region variable is absent from the process
    environment, the construction of the descriptor, that is the call
    [NewPlausibleStack(app, "plausible-stack", props)] on the props that carry
    [env()], returns a stack: no value is validated on the way.  The resource
    pattern of the policy statement then holds an empty segment where the
    missing value would be: [arn:aws:ssm::<account>:parameter/plausible/*]
    without a region, [arn:aws:ssm:<region>::parameter/plausible/*] without
    an account.  This holds for either copy of the builder.  What the SDK
    does with the stack once it is built is not part of the statement. *)
Theorem missing_environment_embedded (environ : gmap string string) :
  environ !! "CDK_DEFAULT_ACCOUNT" = None \/ environ !! "CDK_DEFAULT_REGION" = None ->
  let built :=
    lib.NewPlausibleStack (awscdk.NewApp None) "plausible-stack"
      (lib_props (env_props environ)) in
  let built' :=
    part_000.NewPlausibleStack (awscdk.NewApp None) "plausible-stack"
      (part_000_props (env_props environ)) in
  (is_ok built = true /\ is_ok built' = true)
  /\
  (environ !! "CDK_DEFAULT_REGION" = None ->
   let pattern :=
     "arn:aws:ssm::" +:+ os.Getenv environ "CDK_DEFAULT_ACCOUNT" +:+ ":parameter/plausible/*" in
   observe policy_resources built = Some [pattern] /\
   observe policy_resources built' = Some [pattern])
  /\
  (environ !! "CDK_DEFAULT_ACCOUNT" = None ->
   let pattern :=
     "arn:aws:ssm:" +:+ os.Getenv environ "CDK_DEFAULT_REGION" +:+ "::parameter/plausible/*" in
   observe policy_resources built = Some [pattern] /\
   observe policy_resources built' = Some [pattern]).
Proof.
  intros _. cbv zeta. split; [apply env_props_build|].
  destruct (env_props_resources environ) as [-> ->].
  split; intros H; rewrite (Getenv_unset _ _ H); split; reflexivity.
Qed.

Lemma missing_environment_embedded_witness :
  let environ : gmap string string := {[ "CDK_DEFAULT_ACCOUNT" := "111122223333" ]} in
  is_ok (lib.NewPlausibleStack (awscdk.NewApp None) "plausible-stack"
           (lib_props (env_props environ))) = true /\
  observe policy_resources
    (lib.NewPlausibleStack (awscdk.NewApp None) "plausible-stack"
       (lib_props (env_props environ)))
  = Some ["arn:aws:ssm::111122223333:parameter/plausible/*"].
Proof.
  intros environ.
  assert (Hregion : environ !! "CDK_DEFAULT_REGION" = None) by reflexivity.
  destruct (missing_environment_embedded environ (or_intror Hregion))
    as [[Hok _] [Hr _]].
  split; [exact Hok|].
  exact (proj1 (Hr Hregion)).
Defined.

(** ** The instance role *)

(** C9. In every stack built, the role of the instance is assumed by the
    service principal ec2.amazonaws.com, its own policy is the one statement
    allowing ssm:GetParameter and ssm:GetParameters, and besides that
    statement it carries the AWS managed policy AmazonSSMManagedInstanceCore:
    the role grants more than the two parameter-read actions. *)
Theorem instance_role_permissions scope id :
  (forall props,
     is_ok (lib.NewPlausibleStack scope id props) = true ->
     let built := lib.NewPlausibleStack scope id props in
     observe role_principal built = Some (iam.ServicePrincipal "ec2.amazonaws.com") /\
     observe role_managed_policies built
       = Some [iam.AwsManagedPolicy "AmazonSSMManagedInstanceCore"] /\
     observe role_statements built
       = Some [(iam.Effect_ALLOW, ["ssm:GetParameter"; "ssm:GetParameters"])])
  /\
  (forall props,
     is_ok (part_000.NewPlausibleStack scope id props) = true ->
     let built := part_000.NewPlausibleStack scope id props in
     observe role_principal built = Some (iam.ServicePrincipal "ec2.amazonaws.com") /\
     observe role_managed_policies built
       = Some [iam.AwsManagedPolicy "AmazonSSMManagedInstanceCore"] /\
     observe role_statements built
       = Some [(iam.Effect_ALLOW, ["ssm:GetParameter"; "ssm:GetParameters"])]).
Proof.
  split; intros props H; build_inv H props; repeat split; reflexivity.
Qed.

Lemma instance_role_permissions_witness :
  observe role_managed_policies
    (lib.NewPlausibleStack (awscdk.NewApp None) "plausible-stack"
       (lib_props (env_of (Some "111122223333") (Some "us-east-1"))))
  = Some [iam.AwsManagedPolicy "AmazonSSMManagedInstanceCore"]
  /\
  observe role_principal
    (part_000.NewPlausibleStack (awscdk.NewApp None) "plausible-stack"
       (part_000_props (env_of (Some "111122223333") (Some "us-east-1"))))
  = Some (iam.ServicePrincipal "ec2.amazonaws.com").
Proof.
  split.
  - apply (proj1 (instance_role_permissions (awscdk.NewApp None) "plausible-stack")
             (lib_props (env_of (Some "111122223333") (Some "us-east-1")))).
    reflexivity.
  - apply (proj2 (instance_role_permissions (awscdk.NewApp None) "plausible-stack")
             (part_000_props (env_of (Some "111122223333") (Some "us-east-1")))).
    reflexivity.
Defined.

(** ** Egress *)

(** C10. In every stack built, the security group of the instance is
    created with [AllowAllOutbound] set to true. *)
Theorem egress_unrestricted scope id :
  (forall props,
     is_ok (lib.NewPlausibleStack scope id props) = true ->
     observe allow_all_outbound (lib.NewPlausibleStack scope id props) = Some (Some true))
  /\
  (forall props,
     is_ok (part_000.NewPlausibleStack scope id props) = true ->
     observe allow_all_outbound (part_000.NewPlausibleStack scope id props) = Some (Some true)).
Proof.
  split; intros props H; build_inv H props; reflexivity.
Qed.

Lemma egress_unrestricted_witness :
  observe allow_all_outbound
    (lib.NewPlausibleStack (awscdk.NewApp None) "plausible-stack"
       (lib_props (env_of (Some "111122223333") (Some "us-east-1"))))
  = Some (Some true)
  /\
  observe allow_all_outbound
    (part_000.NewPlausibleStack (awscdk.NewApp None) "plausible-stack"
       (part_000_props (env_of (Some "111122223333") (Some "us-east-1"))))
  = Some (Some true).
Proof.
  split.
  - apply (proj1 (egress_unrestricted (awscdk.NewApp None) "plausible-stack")).
    reflexivity.
  - apply (proj2 (egress_unrestricted (awscdk.NewApp None) "plausible-stack")).
    reflexivity.
Defined.

(** ** Order of the boot script *)

Lemma positions_from_lookup p l :
  forall n i c,
    l !! i = Some c -> p c = true -> In (n + i)%nat (positions_from n p l).
Proof.
  induction l as [|x l IH]; intros n i c Hi Hp.
  - destruct i; discriminate Hi.
  - destruct i as [|i]; simpl in Hi |- *.
    + injection Hi as ->. rewrite Hp. left. lia.
    + specialize (IH (S n) i c Hi Hp).
      replace (n + S i)%nat with (S n + i)%nat by lia.
      destruct (p x); [right|]; exact IH.
Qed.

Lemma all_beforeb_sound p q l :
  all_beforeb p q l = true -> all_before p q l.
Proof.
  unfold all_beforeb, all_before, positions.
  intros H i j ci cj Hi Hp Hj Hq.
  rewrite forallb_forall in H.
  specialize (H i (positions_from_lookup p l 0 i ci Hi Hp)).
  rewrite forallb_forall in H.
  specialize (H j (positions_from_lookup q l 0 j cj Hj Hq)).
  apply Nat.ltb_lt in H. exact H.
Qed.

Lemma holds_impl {A : Type} (P Q : A -> Prop) (o : option A) :
  (forall a, P a -> Q a) -> holds P o -> holds Q o.
Proof. intros H. destruct o; simpl; [apply H | exact (fun x => x)]. Defined.

Lemma holds2_impl {A B : Type} (P Q : A -> B -> Prop) (o1 : option A) (o2 : option B) :
  (forall a b, P a b -> Q a b) -> holds2 P o1 o2 -> holds2 Q o1 o2.
Proof. intros H. destruct o1, o2; simpl; try exact (fun x => x). apply H. Defined.

(** Evaluates what is read from the build in a goal [holds P (observe f b)]. *)
Ltac read_build :=
  match goal with
  | |- holds _ ?o =>
      let v := eval vm_compute in o in
      change o with v; cbv beta iota delta [holds]
  | |- ~ holds _ ?o =>
      let v := eval vm_compute in o in
      change o with v; cbv beta iota delta [holds]
  | |- holds2 _ ?o1 ?o2 =>
      let v1 := eval vm_compute in o1 in
      let v2 := eval vm_compute in o2 in
      change o1 with v1; change o2 with v2; cbv beta iota delta [holds2]
  end.

Ltac ordered := apply all_beforeb_sound; vm_compute; reflexivity.

(** C3. In the boot script of every stack built, by either copy, the
    exports of SECRET_KEY_BASE and of POSTGRES_PASSWORD are present and every
    secret export stands strictly after the region-discovery command and
    strictly before the [docker-compose up] command. *)
Theorem secret_exports_ordered scope id :
  (forall props,
     is_ok (lib.NewPlausibleStack scope id props) = true ->
     holds secrets_in_order (observe boot_script (lib.NewPlausibleStack scope id props)))
  /\
  (forall props,
     is_ok (part_000.NewPlausibleStack scope id props) = true ->
     holds secrets_in_order (observe boot_script (part_000.NewPlausibleStack scope id props))).
Proof.
  split; intros props H; build_inv H props; read_build;
    unfold secrets_in_order; repeat split; try ordered; vm_compute; reflexivity.
Qed.

Lemma secret_exports_ordered_witness :
  holds secrets_in_order
    (observe boot_script
       (lib.NewPlausibleStack (awscdk.NewApp None) "plausible-stack"
          (lib_props (env_of (Some "111122223333") (Some "us-east-1")))))
  /\
  holds secrets_in_order
    (observe boot_script
       (part_000.NewPlausibleStack (awscdk.NewApp None) "plausible-stack"
          (part_000_props (env_of (Some "111122223333") (Some "us-east-1"))))).
Proof.
  split.
  - apply (proj1 (secret_exports_ordered (awscdk.NewApp None) "plausible-stack")).
    reflexivity.
  - apply (proj2 (secret_exports_ordered (awscdk.NewApp None) "plausible-stack")).
    reflexivity.
Defined.

(** C4. In the boot script of every stack built, by either copy, the
    commands that set up the reverse proxy (nginx install, site-config write,
    symlink, config test and restart among them) all stand strictly after the
    [docker-compose up] command and strictly before the certbot command that
    requests the certificate. *)
Theorem reverse_proxy_ordered scope id :
  (forall props,
     is_ok (lib.NewPlausibleStack scope id props) = true ->
     holds proxy_in_order (observe boot_script (lib.NewPlausibleStack scope id props)))
  /\
  (forall props,
     is_ok (part_000.NewPlausibleStack scope id props) = true ->
     holds proxy_in_order (observe boot_script (part_000.NewPlausibleStack scope id props))).
Proof.
  split; intros props H; build_inv H props; read_build;
    unfold proxy_in_order; repeat split; try ordered;
    try (repeat constructor); vm_compute; reflexivity.
Qed.

Lemma reverse_proxy_ordered_witness :
  holds proxy_in_order
    (observe boot_script
       (lib.NewPlausibleStack (awscdk.NewApp None) "plausible-stack"
          (lib_props (env_of (Some "111122223333") (Some "us-east-1")))))
  /\
  holds proxy_in_order
    (observe boot_script
       (part_000.NewPlausibleStack (awscdk.NewApp None) "plausible-stack"
          (part_000_props (env_of (Some "111122223333") (Some "us-east-1"))))).
Proof.
  split.
  - apply (proj1 (reverse_proxy_ordered (awscdk.NewApp None) "plausible-stack")).
    reflexivity.
  - apply (proj2 (reverse_proxy_ordered (awscdk.NewApp None) "plausible-stack")).
    reflexivity.
Defined.

(** ** The two copies of the boot script *)

(** The scripts of the two copies differ: the command lists are not equal
    for the deployment context 111122223333 / us-east-1.  (C5 as stated
    fails.) *)
Lemma scripts_differ :
  observe boot_script
    (lib.NewPlausibleStack (awscdk.NewApp None) "plausible-stack"
       (lib_props (env_of (Some "111122223333") (Some "us-east-1"))))
  <>
  observe boot_script
    (part_000.NewPlausibleStack (awscdk.NewApp None) "plausible-stack"
       (part_000_props (env_of (Some "111122223333") (Some "us-east-1")))).
Proof. intros H. vm_compute in H. discriminate H. Qed.

(** C5, amended. For the same scope, id and stack props, the multipart copy
    wraps its commands in one part labelled [text/x-shellscript;
    charset="utf-8"], the flat copy holds them directly, and the two lists of
    22 commands agree at every position but one, the sixteenth command, which
    writes the nginx site file.  In the multipart copy that command is the
    [sudo bash -c 'cat > ... <<'EOF'] form, starting on a new line, every line
    of it indented with tabs; in the flat copy it is the
    [sudo tee ... > /dev/null << 'EOF'] form and holds no tab. *)
Theorem scripts_agree_except_site_config scope id p :
  is_ok (lib.NewPlausibleStack scope id (lib_props p)) = true ->
  let multipart := lib.NewPlausibleStack scope id (lib_props p) in
  let flat := part_000.NewPlausibleStack scope id (part_000_props p) in
  let options := {| ec2.LinuxUserDataOptions.Shebang := Some "#!/bin/bash" |} in
  holds2 (fun m f =>
            length m = 22%nat /\
            agree_except 15 m f /\
            holds2 (fun cm cf =>
                      cm <> cf /\
                      is_site_config_write cm = true /\
                      is_site_config_write cf = true /\
                      (writes_site_with_bash_cat cm = true /\
                       tab_indented cm = true /\
                       writes_site_with_tee cm = false) /\
                      (writes_site_with_tee cf = true /\
                       contains tab cf = false /\
                       writes_site_with_bash_cat cf = false))
              (m !! 15%nat) (f !! 15%nat))
    (observe boot_script multipart) (observe boot_script flat)
  /\
  observe user_data multipart
  = (fun m =>
       ec2.MultipartUserData_
         (ec2.Multipart
            [ec2.Body (ec2.LinuxUserData options m)
               ("text/x-shellscript; charset=" +:+ dquote +:+ "utf-8" +:+ dquote)]))
    <$> observe boot_script multipart
  /\
  observe user_data flat
  = ec2.LinuxUserData options <$> observe boot_script flat.
Proof.
  intros H.
  destruct p as [ [ [ [account | ] [region | ] ] | ] ];
    vm_compute in H; try discriminate H; clear H.
  cbv zeta. split; [|split; reflexivity].
  read_build. split; [reflexivity|]. split.
  - split; [reflexivity|].
    intros i Hi.
    do 22 (destruct i as [|i]; [first [reflexivity | congruence]|]).
    reflexivity.
  - cbv beta iota delta [holds2 lookup list_lookup].
    split; [discriminate|]. repeat split; vm_compute; reflexivity.
Qed.

Lemma scripts_agree_except_site_config_witness :
  holds2 (fun m f => agree_except 15 m f)
    (observe boot_script
       (lib.NewPlausibleStack (awscdk.NewApp None) "plausible-stack"
          (lib_props (env_of (Some "111122223333") (Some "us-east-1")))))
    (observe boot_script
       (part_000.NewPlausibleStack (awscdk.NewApp None) "plausible-stack"
          (part_000_props (env_of (Some "111122223333") (Some "us-east-1"))))).
Proof.
  destruct (scripts_agree_except_site_config (awscdk.NewApp None) "plausible-stack"
              (env_of (Some "111122223333") (Some "us-east-1")) eq_refl) as [H _].
  revert H. apply holds2_impl. intros m f H. exact (proj1 (proj2 H)).
Defined.

(** ** The certificate-renewal job *)

Lemma run_tee_overwrites (words file : string) :
  String.eqb file "-a" = false ->
  forall fs,
    sh.pipeline [ ["echo"; words]; ["sudo"; "tee"; file] ] "" fs
    = Some (<[file := words +:+ nl]> fs).
Proof.
  intros Hfile fs. simpl. unfold sh.parse. simpl.
  rewrite Hfile. reflexivity.
Qed.

Lemma run_tee_a_appends (words file : string) :
  forall fs,
    sh.pipeline [ ["echo"; words]; ["sudo"; "tee"; "-a"; file] ] "" fs
    = Some (<[file := default "" (fs !! file) +:+ words +:+ nl]> fs).
Proof. intros fs. reflexivity. Qed.

Lemma overwrites_idempotent line path text :
  overwrites line path text ->
  forall fs fs1, sh.run line fs = Some fs1 -> sh.run line fs1 = Some fs1.
Proof.
  intros H fs fs1 H1.
  rewrite H in H1. injection H1 as <-.
  rewrite H. f_equal. apply insert_insert_eq.
Qed.

Lemma length_append (s1 s2 : string) :
  String.length (s1 +:+ s2) = (String.length s1 + String.length s2)%nat.
Proof. induction s1 as [|c s1 IH]; simpl; [reflexivity | rewrite IH; reflexivity]. Qed.

Lemma overwrites_not_appends line path text :
  text <> "" -> overwrites line path text -> ~ appends_to line path text.
Proof.
  intros Htext Ho Ha.
  specialize (Ho {[ path := text ]}). specialize (Ha {[ path := text ]}).
  rewrite Ho in Ha.
  apply (f_equal (fun o : option (gmap string string) => o ≫= (fun fs => fs !! path))) in Ha.
  simpl in Ha.
  rewrite !lookup_insert_eq, lookup_singleton_eq in Ha. simpl in Ha.
  injection Ha as Ha.
  apply (f_equal String.length) in Ha.
  rewrite length_append in Ha.
  destruct text; [congruence | simpl in Ha; lia].
Qed.

Lemma cron_command_overwrites :
  overwrites
    "echo '0 0 * * * root /usr/bin/certbot renew --quiet' | sudo tee /etc/cron.d/certbot-renew"
    cron_path cron_line.
Proof.
  intros fs. unfold sh.run.
  match goal with
  | |- sh.pipeline ?st _ _ = _ => let v := eval vm_compute in st in change st with v
  end.
  apply run_tee_overwrites. reflexivity.
Qed.

(** The last command of the boot script does not append the renewal job to
    [/etc/cron.d/certbot-renew]: run on a file that already holds the cron
    line, it leaves that one line.  (C6 as stated fails.) *)
Lemma cron_job_not_appended :
  ~ holds (fun line => appends_to line cron_path cron_line)
      (observe final_command
         (lib.NewPlausibleStack (awscdk.NewApp None) "plausible-stack"
            (lib_props (env_of (Some "111122223333") (Some "us-east-1"))))).
Proof.
  read_build.
  apply overwrites_not_appends; [discriminate | apply cron_command_overwrites].
Qed.

(** C6, amended. In every stack built, by either copy, the last command of
    the boot script pipes the cron line of the renewal job through [tee]
    without [-a] into [/etc/cron.d/certbot-renew]: it replaces the content of
    that file by the one line, so that running the command again leaves the
    file as it is. *)
Theorem cron_job_overwritten scope id :
  let installs_job line :=
    overwrites line cron_path cron_line /\
    (forall fs fs1, sh.run line fs = Some fs1 -> sh.run line fs1 = Some fs1) in
  (forall props,
     is_ok (lib.NewPlausibleStack scope id props) = true ->
     holds installs_job (observe final_command (lib.NewPlausibleStack scope id props)))
  /\
  (forall props,
     is_ok (part_000.NewPlausibleStack scope id props) = true ->
     holds installs_job (observe final_command (part_000.NewPlausibleStack scope id props))).
Proof.
  cbv zeta.
  split; intros props H; build_inv H props; read_build;
    (split; [apply cron_command_overwrites
            | apply (overwrites_idempotent _ _ _ cron_command_overwrites)]).
Qed.

Lemma cron_job_overwritten_witness :
  holds (fun line =>
           sh.run line {[ cron_path := cron_line ]} = Some {[ cron_path := cron_line ]})
    (observe final_command
       (part_000.NewPlausibleStack (awscdk.NewApp None) "plausible-stack"
          (part_000_props (env_of (Some "111122223333") (Some "us-east-1"))))).
Proof.
  generalize (proj2 (cron_job_overwritten (awscdk.NewApp None) "plausible-stack")
                (part_000_props (env_of (Some "111122223333") (Some "us-east-1")))
                eq_refl).
  apply holds_impl. intros line [H _].
  rewrite H. rewrite insert_singleton_eq. reflexivity.
Defined.

(** ** Determinism *)

(** The boot script does not depend on the inputs of the build at all. *)
Lemma boot_script_constant scope1 id1 props1 scope2 id2 props2 :
  is_ok (lib.NewPlausibleStack scope1 id1 props1) = true ->
  is_ok (lib.NewPlausibleStack scope2 id2 props2) = true ->
  observe boot_script (lib.NewPlausibleStack scope1 id1 props1)
  = observe boot_script (lib.NewPlausibleStack scope2 id2 props2).
Proof.
  intros H1 H2. build_inv H1 props1. build_inv H2 props2. vm_compute. reflexivity.
Qed.

Lemma part_000_boot_script_constant scope1 id1 props1 scope2 id2 props2 :
  is_ok (part_000.NewPlausibleStack scope1 id1 props1) = true ->
  is_ok (part_000.NewPlausibleStack scope2 id2 props2) = true ->
  observe boot_script (part_000.NewPlausibleStack scope1 id1 props1)
  = observe boot_script (part_000.NewPlausibleStack scope2 id2 props2).
Proof.
  intros H1 H2. build_inv H1 props1. build_inv H2 props2. vm_compute. reflexivity.
Qed.

(** C7. Two builds given the same props (the same account, the same
    region), each in its own scope and under its own id, that both return a
    stack have the same boot script: both scripts are there, of the same 22
    commands, equal command for command.  This holds for either copy.  The
    builders take no other input than their arguments. *)
Theorem boot_script_deterministic scope1 id1 scope2 id2 :
  (forall props,
     is_ok (lib.NewPlausibleStack scope1 id1 props) = true ->
     is_ok (lib.NewPlausibleStack scope2 id2 props) = true ->
     holds2 (fun script1 script2 => script1 = script2 /\ length script1 = 22%nat)
       (observe boot_script (lib.NewPlausibleStack scope1 id1 props))
       (observe boot_script (lib.NewPlausibleStack scope2 id2 props)))
  /\
  (forall props,
     is_ok (part_000.NewPlausibleStack scope1 id1 props) = true ->
     is_ok (part_000.NewPlausibleStack scope2 id2 props) = true ->
     holds2 (fun script1 script2 => script1 = script2 /\ length script1 = 22%nat)
       (observe boot_script (part_000.NewPlausibleStack scope1 id1 props))
       (observe boot_script (part_000.NewPlausibleStack scope2 id2 props))).
Proof.
  split; intros props H _; build_inv H props; read_build; split; reflexivity.
Qed.

Lemma boot_script_deterministic_witness :
  holds2 (fun script1 script2 => script1 = script2)
    (observe boot_script
       (lib.NewPlausibleStack (awscdk.NewApp None) "plausible-stack"
          (lib_props (env_of (Some "111122223333") (Some "us-east-1")))))
    (observe boot_script
       (lib.NewPlausibleStack {| constructs.path := ["second-run"] |} "plausible-stack-2"
          (lib_props (env_of (Some "111122223333") (Some "us-east-1"))))).
Proof.
  generalize (proj1 (boot_script_deterministic
                       (awscdk.NewApp None) "plausible-stack"
                       {| constructs.path := ["second-run"] |} "plausible-stack-2")
                (lib_props (env_of (Some "111122223333") (Some "us-east-1")))
                eq_refl eq_refl).
  apply holds2_impl. intros script1 script2 H. exact (proj1 H).
Defined.

(** * Further properties of the stack builder *)

(** Case analysis on a possibly nil [awscdk.StackProps]. *)
Ltac props_cases p :=
  destruct p as [ [ [ [ [?account | ] [?region | ] ] | ] ] | ].

Lemma lib_resources scope id account region :
  observe policy_resources
    (lib.NewPlausibleStack scope id (lib_props (env_of (Some account) (Some region))))
  = Some [ssm_pattern region account].
Proof. reflexivity. Qed.

Lemma part_000_resources scope id account region :
  observe policy_resources
    (part_000.NewPlausibleStack scope id (part_000_props (env_of (Some account) (Some region))))
  = Some [ssm_pattern region account].
Proof. reflexivity. Qed.

(** ** Outcome of a build *)

(** X1. [NewPlausibleStack], in either copy, panics on a nil dereference
    when [props] is nil, whatever the scope and the id (the dereference comes
    before any call to the SDK); and a stack it returns for props that give
    an account and a region is a stack for that account and that region. *)
Theorem build_outcome scope id :
  (panic_message (lib.NewPlausibleStack scope id None)
   = Some "runtime error: invalid memory address or nil pointer dereference" /\
   panic_message (part_000.NewPlausibleStack scope id None)
   = Some "runtime error: invalid memory address or nil pointer dereference")
  /\
  (forall account region,
     is_ok (lib.NewPlausibleStack scope id
              (lib_props (env_of (Some account) (Some region)))) = true ->
     observe (fun s => Some (awscdk.Account s, awscdk.Region s))
       (lib.NewPlausibleStack scope id (lib_props (env_of (Some account) (Some region))))
     = Some (Some account, Some region))
  /\
  (forall account region,
     is_ok (part_000.NewPlausibleStack scope id
              (part_000_props (env_of (Some account) (Some region)))) = true ->
     observe (fun s => Some (awscdk.Account s, awscdk.Region s))
       (part_000.NewPlausibleStack scope id
          (part_000_props (env_of (Some account) (Some region))))
     = Some (Some account, Some region)).
Proof. repeat split; reflexivity. Qed.

Lemma build_outcome_witness :
  observe (fun s => Some (awscdk.Account s, awscdk.Region s))
    (lib.NewPlausibleStack (awscdk.NewApp None) "plausible-stack"
       (lib_props (env_of (Some "111122223333") (Some "us-east-1"))))
  = Some (Some "111122223333", Some "us-east-1").
Proof.
  exact (proj1 (proj2 (build_outcome (awscdk.NewApp None) "plausible-stack"))
           "111122223333" "us-east-1" eq_refl).
Defined.

(** ** The two copies *)

(** X2. For the same scope, id and props the two copies of
    [NewPlausibleStack] have the same outcome up to the user data of the
    instance: the same panic, or stacks with the same environment and the
    same constructs under the same ids, the instance apart from its user
    data included. *)
Theorem copies_agree_apart_from_user_data scope id (p : option awscdk.StackProps.t) :
  same_apart_from_user_data
    (lib.NewPlausibleStack scope id (lib_of p))
    (part_000.NewPlausibleStack scope id (part_000_of p)).
Proof. props_cases p; vm_compute; reflexivity. Qed.

(** ** Constructs of the stack *)

(** X3. In every stack built, by either copy, each handle a construct holds
    leads to a construct of the stack of the kind it needs (the network of
    the security group and of the instance, the group, key pair and role of
    the instance, the instance of the elastic IP, the target of the output),
    and the instance is placed in the network of its security group. *)
Theorem stack_well_linked scope id :
  (forall props,
     is_ok (lib.NewPlausibleStack scope id props) = true ->
     observe (fun s => Some (well_linked s)) (lib.NewPlausibleStack scope id props)
     = Some true /\
     holds (fun n => fst n = snd n)
       (observe networks (lib.NewPlausibleStack scope id props)))
  /\
  (forall props,
     is_ok (part_000.NewPlausibleStack scope id props) = true ->
     observe (fun s => Some (well_linked s)) (part_000.NewPlausibleStack scope id props)
     = Some true /\
     holds (fun n => fst n = snd n)
       (observe networks (part_000.NewPlausibleStack scope id props))).
Proof.
  split; intros props H; build_inv H props;
    (split; [vm_compute; reflexivity | read_build; reflexivity]).
Qed.

Lemma stack_well_linked_witness :
  observe (fun s => Some (well_linked s))
    (lib.NewPlausibleStack (awscdk.NewApp None) "plausible-stack"
       (lib_props (env_of (Some "111122223333") (Some "us-east-1"))))
  = Some true
  /\
  observe (fun s => Some (well_linked s))
    (part_000.NewPlausibleStack (awscdk.NewApp None) "plausible-stack"
       (part_000_props (env_of (Some "111122223333") (Some "us-east-1"))))
  = Some true.
Proof.
  split.
  - exact (proj1 (proj1 (stack_well_linked (awscdk.NewApp None) "plausible-stack")
                    (lib_props (env_of (Some "111122223333") (Some "us-east-1")))
                    eq_refl)).
  - exact (proj1 (proj2 (stack_well_linked (awscdk.NewApp None) "plausible-stack")
                    (part_000_props (env_of (Some "111122223333") (Some "us-east-1")))
                    eq_refl)).
Defined.

(** X4. Every stack built, by either copy, holds exactly seven constructs:
    the looked-up network, the security group, the role, the imported key
    pair, the instance, the elastic IP and the output.  Nothing else is
    created, whatever the props. *)
Theorem constructs_of_the_stack scope id :
  let ids : gset string :=
    {[ "DefaultVPC"; "PlausibleSG"; "InstanceSSMRole"; "KeyPairName";
       "PlausibleInstance"; "InstanceEIP"; "InstancePublicIP" ]} in
  (forall props,
     is_ok (lib.NewPlausibleStack scope id props) = true ->
     observe (fun s => Some (construct_ids s)) (lib.NewPlausibleStack scope id props)
     = Some ids)
  /\
  (forall props,
     is_ok (part_000.NewPlausibleStack scope id props) = true ->
     observe (fun s => Some (construct_ids s)) (part_000.NewPlausibleStack scope id props)
     = Some ids).
Proof.
  cbv zeta. split; intros props H; build_inv H props; vm_compute; reflexivity.
Qed.

Lemma constructs_of_the_stack_witness :
  observe (fun s => Some (size (construct_ids s)))
    (lib.NewPlausibleStack (awscdk.NewApp None) "plausible-stack"
       (lib_props (env_of (Some "111122223333") (Some "us-east-1"))))
  = Some 7%nat.
Proof.
  generalize (proj1 (constructs_of_the_stack (awscdk.NewApp None) "plausible-stack")
                (lib_props (env_of (Some "111122223333") (Some "us-east-1"))) eq_refl).
  destruct (lib.NewPlausibleStack _ _ _) as [s|msg]; simpl; [|discriminate].
  intros H. injection H as ->. vm_compute. reflexivity.
Defined.

(** X5. In every stack built, by either copy, the instance is a burstable
    class 3 micro instance from the lookup of the image
    [ubuntu/images/hvm-ssd/ubuntu-focal-20.04-amd64-server-*] owned by
    099720109477, in the network found by the lookup of the default VPC, with
    the imported key pair [plausible-keypair]. *)
Theorem instance_descriptor scope id :
  let summary :=
    (ec2.InstanceType_Of ec2.InstanceClass_BURSTABLE3 ec2.InstanceSize_MICRO,
     ec2.MachineImage_Lookup
       {| ec2.LookupMachineImageProps.Name :=
            "ubuntu/images/hvm-ssd/ubuntu-focal-20.04-amd64-server-*";
          ec2.LookupMachineImageProps.Owners := Some ["099720109477"] |},
     Some true, "plausible-keypair") in
  (forall props,
     is_ok (lib.NewPlausibleStack scope id props) = true ->
     observe instance_summary (lib.NewPlausibleStack scope id props) = Some summary)
  /\
  (forall props,
     is_ok (part_000.NewPlausibleStack scope id props) = true ->
     observe instance_summary (part_000.NewPlausibleStack scope id props) = Some summary).
Proof.
  cbv zeta. split; intros props H; build_inv H props; reflexivity.
Qed.

Lemma instance_descriptor_witness :
  (snd <$> observe instance_summary
     (part_000.NewPlausibleStack (awscdk.NewApp None) "plausible-stack"
        (part_000_props (env_of (Some "111122223333") (Some "us-east-1")))))
  = Some "plausible-keypair".
Proof.
  rewrite (proj2 (instance_descriptor (awscdk.NewApp None) "plausible-stack")
             (part_000_props (env_of (Some "111122223333") (Some "us-east-1"))) eq_refl).
  reflexivity.
Defined.

(** X6. Every stack built, by either copy, has one output,
    [InstancePublicIP], described as the public IP address of the EC2
    instance; its value is the reference to the elastic IP, which is in the
    [vpc] domain and bound to the instance [PlausibleInstance]. *)
Theorem output_exposes_instance_address scope id :
  let expected :=
    [ ("InstancePublicIP",
       Some "The public IP address of the EC2 instance",
       Some {| ec2.CfnEIPProps.Domain := Some "vpc";
               ec2.CfnEIPProps.InstanceId := Some (ec2.Ref "PlausibleInstance") |}) ] in
  (forall props,
     is_ok (lib.NewPlausibleStack scope id props) = true ->
     observe (fun s => Some (outputs s)) (lib.NewPlausibleStack scope id props)
     = Some expected /\
     observe (fun s => is_instance <$> awscdk.children s !! "PlausibleInstance")
       (lib.NewPlausibleStack scope id props) = Some true)
  /\
  (forall props,
     is_ok (part_000.NewPlausibleStack scope id props) = true ->
     observe (fun s => Some (outputs s)) (part_000.NewPlausibleStack scope id props)
     = Some expected /\
     observe (fun s => is_instance <$> awscdk.children s !! "PlausibleInstance")
       (part_000.NewPlausibleStack scope id props) = Some true).
Proof.
  cbv zeta. split; intros props H; build_inv H props; split; vm_compute; reflexivity.
Qed.

Lemma output_exposes_instance_address_witness :
  observe (fun s => Some (length (outputs s)))
    (lib.NewPlausibleStack (awscdk.NewApp None) "plausible-stack"
       (lib_props (env_of (Some "111122223333") (Some "us-east-1"))))
  = Some 1%nat.
Proof.
  generalize (proj1 (proj1 (output_exposes_instance_address (awscdk.NewApp None)
                               "plausible-stack")
                       (lib_props (env_of (Some "111122223333") (Some "us-east-1")))
                       eq_refl)).
  destruct (lib.NewPlausibleStack _ _ _) as [s|msg]; simpl; [|discriminate].
  intros H. injection H as ->. reflexivity.
Defined.

(** ** The boot script and the deployment context *)

(** X8. The boot script is not parameterised: two builds that return a
    stack carry the same commands, whatever scope, id, account and region
    each was given.  This holds for either copy. *)
Theorem boot_script_independent_of_inputs scope1 id1 scope2 id2 :
  (forall props1 props2,
     is_ok (lib.NewPlausibleStack scope1 id1 props1) = true ->
     is_ok (lib.NewPlausibleStack scope2 id2 props2) = true ->
     observe boot_script (lib.NewPlausibleStack scope1 id1 props1)
     = observe boot_script (lib.NewPlausibleStack scope2 id2 props2))
  /\
  (forall props1 props2,
     is_ok (part_000.NewPlausibleStack scope1 id1 props1) = true ->
     is_ok (part_000.NewPlausibleStack scope2 id2 props2) = true ->
     observe boot_script (part_000.NewPlausibleStack scope1 id1 props1)
     = observe boot_script (part_000.NewPlausibleStack scope2 id2 props2)).
Proof.
  split; intros props1 props2 H1 H2.
  - apply boot_script_constant; assumption.
  - apply part_000_boot_script_constant; assumption.
Qed.

Lemma boot_script_independent_of_inputs_witness :
  observe boot_script
    (lib.NewPlausibleStack (awscdk.NewApp None) "plausible-stack"
       (lib_props (env_of (Some "111122223333") (Some "us-east-1"))))
  = observe boot_script
      (lib.NewPlausibleStack {| constructs.path := ["stage"] |} "other-stack"
         (lib_props (env_of (Some "") (Some "eu-west-3")))).
Proof.
  exact (proj1 (boot_script_independent_of_inputs
                  (awscdk.NewApp None) "plausible-stack"
                  {| constructs.path := ["stage"] |} "other-stack")
           (lib_props (env_of (Some "111122223333") (Some "us-east-1")))
           (lib_props (env_of (Some "") (Some "eu-west-3")))
           eq_refl eq_refl).
Defined.

(** ** The policy and the parameters the script fetches *)

Lemma glob_star p s :
  glob (String "*" p) s
  = glob p s || match s with
                | EmptyString => false
                | String _ s' => glob (String "*" p) s'
                end.
Proof. destruct s; reflexivity. Qed.

Lemma glob_cons c p d s :
  Ascii.eqb c "*" = false ->
  glob (String c p) (String d s) = (Ascii.eqb c "?" || Ascii.eqb c d) && glob p s.
Proof. intros H. simpl. rewrite H. reflexivity. Qed.

(** A pattern matches its own text. *)
Lemma glob_refl s : glob s s = true.
Proof.
  induction s as [|c s IH]; [reflexivity|].
  destruct (Ascii.eqb c "*") eqn:E.
  - apply Ascii.eqb_eq in E. subst c.
    rewrite glob_star, (glob_star s s), IH. simpl. apply orb_true_r.
  - rewrite (glob_cons _ _ _ _ E), Ascii.eqb_refl, orb_true_r, IH. reflexivity.
Qed.

(** Matching goes through concatenation. *)
Lemma glob_app p : forall s q t,
  glob p s = true -> glob q t = true -> glob (p +:+ q) (s +:+ t) = true.
Proof.
  induction p as [|c p IH]; intros s q t Hp Hq.
  - destruct s; [exact Hq | discriminate Hp].
  - destruct (Ascii.eqb c "*") eqn:E.
    + apply Ascii.eqb_eq in E. subst c.
      change (String "*" p +:+ q) with (String "*" (p +:+ q)).
      induction s as [|d s IHs].
      * rewrite glob_star in Hp. rewrite orb_false_r in Hp.
        rewrite glob_star. rewrite (IH "" q t Hp Hq). reflexivity.
      * rewrite glob_star in Hp. apply orb_true_iff in Hp.
        change (String d s +:+ t) with (String d (s +:+ t)).
        rewrite glob_star. apply orb_true_iff.
        destruct Hp as [Hp|Hp].
        -- left. exact (IH (String d s) q t Hp Hq).
        -- right. exact (IHs Hp).
    + destruct s as [|d s]; [simpl in Hp; rewrite E in Hp; discriminate Hp|].
      rewrite (glob_cons _ _ _ _ E) in Hp. apply andb_true_iff in Hp.
      destruct Hp as [Hc Hp].
      change (glob (String c (p +:+ q)) (String d (s +:+ t)) = true).
      rewrite (glob_cons _ _ _ _ E), Hc, (IH s q t Hp Hq). reflexivity.
Qed.

Lemma pattern_covers_namespace region account name :
  glob "/plausible/*" name = true ->
  glob (ssm_pattern region account) (parameter_arn region account name) = true.
Proof.
  intros H. unfold ssm_pattern, parameter_arn.
  apply glob_app; [apply glob_refl|].
  apply glob_app; [apply glob_refl|].
  apply glob_app; [apply glob_refl|].
  apply glob_app; [apply glob_refl|].
  change ":parameter/plausible/*" with (":parameter" +:+ "/plausible/*").
  apply glob_app; [reflexivity | exact H].
Qed.

Ltac read_script :=
  match goal with
  | |- holds2 _ ?o _ =>
      let v := eval vm_compute in o in
      change o with v; cbv beta iota delta [holds2]
  end.

(** X9. In every stack built for an account and a region, by either copy,
    the boot script fetches parameters from the parameter store, and the
    resource pattern of the role's policy statement covers the ARN that each
    fetched parameter has in that region and account: the instance is
    allowed to read every secret its script asks for. *)
Theorem policy_covers_fetched_parameters scope id (account region : string) :
  holds2 (covers_fetched region account)
    (observe boot_script
       (lib.NewPlausibleStack scope id (lib_props (env_of (Some account) (Some region)))))
    (observe policy_resources
       (lib.NewPlausibleStack scope id (lib_props (env_of (Some account) (Some region)))))
  /\
  holds2 (covers_fetched region account)
    (observe boot_script
       (part_000.NewPlausibleStack scope id
          (part_000_props (env_of (Some account) (Some region)))))
    (observe policy_resources
       (part_000.NewPlausibleStack scope id
          (part_000_props (env_of (Some account) (Some region))))).
Proof.
  rewrite lib_resources, part_000_resources.
  split; read_script; unfold covers_fetched;
    match goal with
    | |- context [fetched_parameters ?l] =>
        let v := eval vm_compute in (fetched_parameters l) in
        change (fetched_parameters l) with v
    end;
    (split; [discriminate|]);
    repeat constructor; apply pattern_covers_namespace; reflexivity.
Qed.

(** ** Resource patterns of different deployment contexts *)

Lemma append_inv_head (s x y : string) : s +:+ x = s +:+ y -> x = y.
Proof.
  induction s as [|c s IH]; simpl; intros H; [exact H|].
  injection H as H. exact (IH H).
Qed.

Lemma append_inv_tail (t : string) : forall x y : string, x +:+ t = y +:+ t -> x = y.
Proof.
  induction x as [|c x IH]; intros y H.
  - destruct y as [|d y]; [reflexivity|].
    apply (f_equal String.length) in H.
    rewrite !length_append in H. simpl in H. lia.
  - destruct y as [|d y].
    + apply (f_equal String.length) in H.
      rewrite !length_append in H. simpl in H. lia.
    + simpl in H. injection H as -> H. rewrite (IH y H). reflexivity.
Qed.

Lemma colon_free_cons c s :
  colon_free (String c s) -> c <> ":"%char /\ colon_free s.
Proof.
  unfold colon_free. intros H.
  change (contains ":" (String c s))
    with (String.prefix ":" (String c s) || contains ":" s) in H.
  apply orb_false_iff in H. destruct H as [H1 H2]. split; [|exact H2].
  intros ->. simpl in H1. destruct s; discriminate H1.
Qed.

Lemma colon_split : forall r r' x x' : string,
  colon_free r -> colon_free r' ->
  r +:+ String ":" x = r' +:+ String ":" x' ->
  r = r' /\ x = x'.
Proof.
  induction r as [|c r IH]; intros r' x x' Hr Hr' H.
  - destruct r' as [|c' r'].
    + simpl in H. injection H as H. split; [reflexivity | exact H].
    + simpl in H. injection H as Hc _.
      apply colon_free_cons in Hr'. destruct Hr' as [Hne _]. congruence.
  - destruct r' as [|c' r'].
    + simpl in H. injection H as Hc _.
      apply colon_free_cons in Hr. destruct Hr as [Hne _]. congruence.
    + simpl in H. injection H as -> H.
      apply colon_free_cons in Hr, Hr'.
      destruct (IH r' x x' (proj2 Hr) (proj2 Hr') H) as [-> ->].
      split; reflexivity.
Qed.

Lemma ssm_pattern_injective region account region' account' :
  colon_free region -> colon_free region' ->
  ssm_pattern region account = ssm_pattern region' account' ->
  region = region' /\ account = account'.
Proof.
  intros Hr Hr' H. unfold ssm_pattern in H.
  apply append_inv_head in H.
  destruct (colon_split _ _ _ _ Hr Hr' H) as [-> H'].
  split; [reflexivity|].
  exact (append_inv_tail _ _ _ H').
Qed.

(** A colon in a region makes the pattern ambiguous. *)
Lemma ssm_pattern_ambiguous :
  ssm_pattern "eu:west" "1" = ssm_pattern "eu" "west:1".
Proof. reflexivity. Qed.

(** X10. Stacks built for regions without a colon have the same resource
    pattern in the role's policy only when they were built for the same
    region and the same account: the pattern tells deployment contexts
    apart.  This holds for either copy. *)
Theorem resource_pattern_tells_contexts_apart
    scope id scope' id' (account region account' region' : string) :
  colon_free region -> colon_free region' ->
  (observe policy_resources
     (lib.NewPlausibleStack scope id (lib_props (env_of (Some account) (Some region))))
   = observe policy_resources
       (lib.NewPlausibleStack scope' id' (lib_props (env_of (Some account') (Some region'))))
   -> region = region' /\ account = account')
  /\
  (observe policy_resources
     (part_000.NewPlausibleStack scope id
        (part_000_props (env_of (Some account) (Some region))))
   = observe policy_resources
       (part_000.NewPlausibleStack scope' id'
          (part_000_props (env_of (Some account') (Some region'))))
   -> region = region' /\ account = account').
Proof.
  intros Hr Hr'.
  rewrite !lib_resources, !part_000_resources.
  remember (ssm_pattern region account) as x eqn:Ex.
  remember (ssm_pattern region' account') as y eqn:Ey.
  split; intros H; injection H as H; subst x y;
    exact (ssm_pattern_injective _ _ _ _ Hr Hr' H).
Qed.

Lemma resource_pattern_tells_contexts_apart_witness :
  colon_free "us-east-1" /\
  (observe policy_resources
     (lib.NewPlausibleStack (awscdk.NewApp None) "plausible-stack"
        (lib_props (env_of (Some "111122223333") (Some "us-east-1"))))
   = observe policy_resources
       (lib.NewPlausibleStack (awscdk.NewApp None) "copy"
          (lib_props (env_of (Some "111122223333") (Some "us-east-1"))))
   -> "us-east-1" = "us-east-1" /\ "111122223333" = "111122223333").
Proof.
  split; [reflexivity|].
  exact (proj1 (resource_pattern_tells_contexts_apart
                  (awscdk.NewApp None) "plausible-stack" (awscdk.NewApp None) "copy"
                  "111122223333" "us-east-1" "111122223333" "us-east-1"
                  eq_refl eq_refl)).
Defined.

(** ** More on the order of the boot script *)

(** X11. In the boot script of every stack built, by either copy, each tool
    the script runs (docker-compose, git, aws, nginx, certbot) is run only
    after the apt-get command that installs its package. *)
Theorem tools_installed_before_use scope id :
  (forall props,
     is_ok (lib.NewPlausibleStack scope id props) = true ->
     holds (fun script => Forall (installed_before_use script) tools)
       (observe boot_script (lib.NewPlausibleStack scope id props)))
  /\
  (forall props,
     is_ok (part_000.NewPlausibleStack scope id props) = true ->
     holds (fun script => Forall (installed_before_use script) tools)
       (observe boot_script (part_000.NewPlausibleStack scope id props))).
Proof.
  split; intros props H; build_inv H props; read_build;
    unfold tools, installed_before_use; repeat constructor; try ordered;
    vm_compute; reflexivity.
Qed.

Lemma tools_installed_before_use_witness :
  holds (fun script => Forall (installed_before_use script) tools)
    (observe boot_script
       (lib.NewPlausibleStack (awscdk.NewApp None) "plausible-stack"
          (lib_props (env_of (Some "111122223333") (Some "us-east-1"))))).
Proof.
  exact (proj1 (tools_installed_before_use (awscdk.NewApp None) "plausible-stack")
           (lib_props (env_of (Some "111122223333") (Some "us-east-1"))) eq_refl).
Defined.

(** X12. The boot script of every stack built, by either copy, holds each
    of these steps, in this order: the repository is cloned before the script
    enters it and starts the workload from it; the proxy site is written
    before it is linked, linked before the configuration is tested, tested
    before the proxy is restarted; and the certificate is requested before
    its renewal is scheduled. *)
Theorem later_steps_ordered scope id :
  (forall props,
     is_ok (lib.NewPlausibleStack scope id props) = true ->
     holds steps_in_order (observe boot_script (lib.NewPlausibleStack scope id props)))
  /\
  (forall props,
     is_ok (part_000.NewPlausibleStack scope id props) = true ->
     holds steps_in_order
       (observe boot_script (part_000.NewPlausibleStack scope id props))).
Proof.
  split; intros props H; build_inv H props; read_build;
    unfold steps_in_order; repeat split; try ordered;
    try (repeat constructor); vm_compute; reflexivity.
Qed.

Lemma later_steps_ordered_witness :
  holds steps_in_order
    (observe boot_script
       (part_000.NewPlausibleStack (awscdk.NewApp None) "plausible-stack"
          (part_000_props (env_of (Some "111122223333") (Some "us-east-1"))))).
Proof.
  exact (proj2 (later_steps_ordered (awscdk.NewApp None) "plausible-stack")
           (part_000_props (env_of (Some "111122223333") (Some "us-east-1"))) eq_refl).
Defined.

(** X13. In the boot script of every stack built, by either copy, the base
    URL handed to the workload, the server name of the proxy site and the
    certificate request name one and the same domain, and the proxy site
    passes requests to [http://localhost:8000]. *)
Theorem script_names_one_domain scope id :
  (forall props,
     is_ok (lib.NewPlausibleStack scope id props) = true ->
     holds (fun script =>
              one_domain script /\ proxy_targets script = ["http://localhost:8000"])
       (observe boot_script (lib.NewPlausibleStack scope id props)))
  /\
  (forall props,
     is_ok (part_000.NewPlausibleStack scope id props) = true ->
     holds (fun script =>
              one_domain script /\ proxy_targets script = ["http://localhost:8000"])
       (observe boot_script (part_000.NewPlausibleStack scope id props))).
Proof.
  split; intros props H; build_inv H props; read_build;
    (split; [eexists; repeat split; vm_compute; reflexivity | vm_compute; reflexivity]).
Qed.

Lemma script_names_one_domain_witness :
  holds one_domain
    (observe boot_script
       (lib.NewPlausibleStack (awscdk.NewApp None) "plausible-stack"
          (lib_props (env_of (Some "111122223333") (Some "us-east-1"))))).
Proof.
  generalize (proj1 (script_names_one_domain (awscdk.NewApp None) "plausible-stack")
                (lib_props (env_of (Some "111122223333") (Some "us-east-1"))) eq_refl).
  apply holds_impl. intros script H. exact (proj1 H).
Defined.
